(** * eBay listing generator: a shallow embedding of [ai_module.py] and [app.py]

    The Python sources are glue code around three external services (the
    hosted language model, the object store and the marketplace API).  The
    embedding keeps the local code as it is written and takes every
    external service as an oracle that answers from the history of the
    interaction so far; every call is recorded in that history, so that
    "no request was made" is a statement about the recorded events. *)

From Stdlib Require Import ZArith NArith List String Ascii Bool Lia.
From Stdlib Require Import DecimalString DecimalNat.
From Stdlib Require Import Floats.SpecFloat.
From stdpp Require Import base option list strings gmap.

Set Warnings "-register-all".

Local Open Scope string_scope.
Local Open Scope list_scope.

(** ** The Python runtime pieces the sources rely on *)

Module Py.

(** Python [str] values are modelled by [string]; a character stands for
    the code point of the same number (the Latin-1 range). *)

Definition code (c : ascii) : N := N_of_ascii c.

(** [str.isspace] on the code points below 256. *)
Definition isspace (c : ascii) : bool :=
  let n := code c in
  ((9 <=? n) && (n <=? 13) || (28 <=? n) && (n <=? 32)
   || (n =? 133) || (n =? 160))%N.

Fixpoint lstrip (s : string) : string :=
  match s with
  | String c s' => if isspace c then lstrip s' else s
  | EmptyString => EmptyString
  end.

Fixpoint rstrip (s : string) : string :=
  match s with
  | EmptyString => EmptyString
  | String c s' =>
      match rstrip s' with
      | EmptyString => if isspace c then EmptyString else String c EmptyString
      | r => String c r
      end
  end.

(** [s.strip()] *)
Definition strip (s : string) : string := rstrip (lstrip s).

(** [str.lower] on the code points below 256. *)
Definition lower_char (c : ascii) : ascii :=
  let n := code c in
  if ((65 <=? n) && (n <=? 90)
      || (192 <=? n) && (n <=? 222) && negb (n =? 215))%N
  then ascii_of_N (n + 32) else c.

Fixpoint lower (s : string) : string :=
  match s with
  | String c s' => String (lower_char c) (lower s')
  | EmptyString => EmptyString
  end.

(** [s[:n]] *)
Fixpoint prefix (n : nat) (s : string) : string :=
  match n, s with
  | S n', String c s' => String c (prefix n' s')
  | _, _ => EmptyString
  end.

(** [str(n)] for a non-negative integer. *)
Definition str_nat (n : nat) : string := NilEmpty.string_of_uint (Nat.to_uint n).

(** [str(x)] where [x] is a string or [None], as an f-string formats it. *)
Definition str_opt (x : option string) : string :=
  match x with
  | Some s => s
  | None => "None"
  end.

(** [c in s] *)
Fixpoint contains (c : ascii) (s : string) : bool :=
  match s with
  | EmptyString => false
  | String a s' => Ascii.eqb a c || contains c s'
  end.

(** The truth value of a string or [None]: false for [None] and for the
    empty string. *)
Definition str_truthy (x : option string) : bool :=
  match x with
  | Some (String _ _) => true
  | _ => false
  end.

(** [a or b] *)
Definition or_else (a b : option string) : option string :=
  if str_truthy a then a else b.

(** [sep.join(items)] *)
Fixpoint join (sep : string) (items : list string) : string :=
  match items with
  | [] => EmptyString
  | [x] => x
  | x :: rest => x +:+ sep +:+ join sep rest
  end.

(** Zero padding to a minimal width, as [strftime] does for its numeric
    fields. *)
Fixpoint zeros (n : nat) : string :=
  match n with
  | O => EmptyString
  | S n' => String "0" (zeros n')
  end.

Definition zfill (width n : nat) : string :=
  let s := str_nat n in zeros (width - String.length s) +:+ s.

(** [s.encode()]: the UTF-8 bytes of the code points below 256. *)
Fixpoint encode_utf8 (s : string) : string :=
  match s with
  | EmptyString => EmptyString
  | String c s' =>
      let n := code c in
      if (n <? 128)%N then String c (encode_utf8 s')
      else String (ascii_of_N (192 + n / 64))
             (String (ascii_of_N (128 + n mod 64)) (encode_utf8 s'))
  end.

(** [s[n:]] *)
Fixpoint suffix (n : nat) (s : string) : string :=
  match n, s with
  | S n', String _ s' => suffix n' s'
  | _, _ => s
  end.

(** *** [base64.b64encode] *)

Definition b64_alphabet : string :=
  "ABCDEFGHIJKLMNOPQRSTUVWXYZabcdefghijklmnopqrstuvwxyz0123456789+/".

Definition b64_char (n : N) : ascii :=
  match String.get (N.to_nat n) b64_alphabet with
  | Some c => c
  | None => "="%char
  end.

Fixpoint b64encode (s : string) : string :=
  match s with
  | EmptyString => EmptyString
  | String a EmptyString =>
      let x := code a in
      String (b64_char (x / 4))
        (String (b64_char ((x mod 4) * 16)) "==")
  | String a (String b EmptyString) =>
      let x := code a in
      let y := code b in
      String (b64_char (x / 4))
        (String (b64_char ((x mod 4) * 16 + y / 16))
           (String (b64_char ((y mod 16) * 4)) "="))
  | String a (String b (String c rest)) =>
      let x := code a in
      let y := code b in
      let z := code c in
      String (b64_char (x / 4))
        (String (b64_char ((x mod 4) * 16 + y / 16))
           (String (b64_char ((y mod 16) * 4 + z / 64))
              (String (b64_char (z mod 64)) (b64encode rest))))
  end%N.

(** *** Floats

    A Python [float] is an IEEE-754 binary64 number; it is modelled by the
    specification floats of the standard library at precision 53. *)

Definition prec : Z := 53.
Definition emax : Z := 1024.

Definition float_lt : spec_float -> spec_float -> bool := SFltb.
Definition float_le : spec_float -> spec_float -> bool := SFleb.

(** The literals [0.1] and [0.5]. *)
Definition f0_1 : spec_float := S754_finite false 7205759403792794 (-56).
Definition f0_5 : spec_float := S754_finite false 4503599627370496 (-53).

(** [max(a, b)] of two floats: the builtin keeps its first argument unless
    a later one compares strictly greater. *)
Definition max (a b : spec_float) : spec_float :=
  if float_lt a b then b else a.

(** The value [(-1)^neg * m * 10^e10], rounded to the nearest binary64
    (ties to even), as the decimal-to-binary conversion of [float] does. *)
Definition float_of_decimal (neg : bool) (m : N) (e10 : Z) : spec_float :=
  match m with
  | N0 => S754_zero neg
  | Npos p =>
      if (0 <=? e10)%Z
      then binary_round prec emax neg (p * Z.to_pos (10 ^ e10)) 0
      else
        let '(q, e, l) :=
          SFdiv_core_binary prec emax (Zpos p) 0 (10 ^ (- e10)) 0 in
        binary_round_aux prec emax neg q e l
  end.

Definition digit_of (c : ascii) : option N :=
  let n := code c in
  if ((48 <=? n) && (n <=? 57))%N then Some (n - 48)%N else None.

(** A run of digits in which single underscores may separate digits. *)
Fixpoint digitpart (s : string) : list N * string :=
  match s with
  | String c s1 =>
      match digit_of c with
      | None => ([], s)
      | Some d =>
          match s1 with
          | String "_" (String c2 _ as s2) =>
              match digit_of c2 with
              | Some _ => let '(ds, r) := digitpart s2 in (d :: ds, r)
              | None => ([d], s1)
              end
          | _ => let '(ds, r) := digitpart s1 in (d :: ds, r)
          end
      end
  | EmptyString => ([], s)
  end.

Definition digits_value (ds : list N) : N :=
  fold_left (fun acc d => (10 * acc + d)%N) ds 0%N.

Definition sign_of (s : string) : bool * string :=
  match s with
  | String "-" r => (true, r)
  | String "+" r => (false, r)
  | _ => (false, s)
  end.

Definition exponent_of (s : string) : option Z :=
  match s with
  | EmptyString => Some 0%Z
  | String c r =>
      if (lower_char c =? "e")%char then
        let '(neg, r1) := sign_of r in
        match digitpart r1 with
        | ((_ :: _) as ds, EmptyString) =>
            let v := Z.of_N (digits_value ds) in
            Some (if neg then (- v)%Z else v)
        | _ => None
        end
      else None
  end.

(** [float(s)] for a string: [None] stands for the [ValueError] raised on a
    string that is not a float literal. *)
Definition float_of_str (s : string) : option spec_float :=
  let '(neg, body) := sign_of (strip s) in
  let low := lower body in
  if (low =? "inf")%string || (low =? "infinity")%string
  then Some (S754_infinity neg)
  else if (low =? "nan")%string then Some S754_nan
  else
    let '(ip, r1) := digitpart body in
    let '(fp, r2) :=
      match r1 with
      | String "." r => digitpart r
      | _ => ([], r1)
      end in
    match ip ++ fp with
    | [] => None
    | ds =>
        match exponent_of r2 with
        | Some e =>
            Some (float_of_decimal neg (digits_value ds)
                    (e - Z.of_nat (length fp)))
        | None => None
        end
    end.

End Py.

(** ** External collaborators and effects *)

Module Ext.

(** The exception classes the sources distinguish.  Every class is a
    subclass of [Exception]; [RequestException] stands for the classes of
    the HTTP library below it as well. *)
Inductive exn_class :=
| Exception | ValueError | OSError | AttributeError | IndexError
| RequestException.

(** An exception with the text [str(e)]. *)
Record exn := mkExn { class_of : exn_class; str : string }.

Definition class_eqb (a b : exn_class) : bool :=
  match a, b with
  | Exception, Exception | ValueError, ValueError | OSError, OSError
  | AttributeError, AttributeError | IndexError, IndexError
  | RequestException, RequestException => true
  | _, _ => false
  end.

(** [except cls] catches [e]. *)
Definition catches (cls : exn_class) (e : exn) : bool :=
  match cls with
  | Exception => true
  | _ => class_eqb cls (class_of e)
  end.

(** Values decoded from JSON; [JNull] is Python's [None]. *)
Inductive jval :=
| JNull
| JBool (b : bool)
| JInt (z : Z)
| JFloat (f : spec_float)
| JStr (s : string)
| JArr (l : list jval)
| JObj (kvs : list (string * jval)).

(** Truth value of an object, as [if x] and [not x] take it. *)
Definition truthy (v : jval) : bool :=
  match v with
  | JNull => false
  | JBool b => b
  | JInt z => negb (z =? 0)%Z
  | JFloat (S754_zero _) => false
  | JFloat _ => true
  | JStr s => negb (String.eqb s EmptyString)
  | JArr l => match l with [] => false | _ => true end
  | JObj kvs => match kvs with [] => false | _ => true end
  end.

Definition type_name (v : jval) : string :=
  match v with
  | JNull => "NoneType"
  | JBool _ => "bool"
  | JInt _ => "int"
  | JFloat _ => "float"
  | JStr _ => "str"
  | JArr _ => "list"
  | JObj _ => "dict"
  end.

Fixpoint assoc (k : string) (kvs : list (string * jval)) : option jval :=
  match kvs with
  | [] => None
  | (k', v) :: rest => if String.eqb k k' then Some v else assoc k rest
  end.

(** *** The chat-completion service *)

Inductive content_part :=
| TextPart (text : string)
| ImageUrlPart (url : string).

Inductive message_content :=
| Text (s : string)
| Parts (ps : list content_part).

Record message := { role : string; content : message_content }.

Record chat_request := {
  model : string;
  messages : list message;
  max_tokens : nat;
  temperature : option spec_float
}.

(** The service raises, or answers with the [message.content] of each of
    its choices ([None] where a choice carries no text). *)
Inductive chat_outcome :=
| ChatRaises (e : exn)
| ChatResponse (choices : list (option string)).

(** *** The object store *)

Record s3_put := {
  Bucket : option string;
  Key : string;
  Body : string;
  ContentType : string;
  ACL : string
}.

(** *** The clock *)

Record datetime := {
  year : nat; month : nat; day : nat;
  hour : nat; minute : nat; second : nat
}.

(** [t.strftime("%Y%m%d_%H%M%S")] *)
Definition strftime (t : datetime) : string :=
  Py.zfill 4 (year t) +:+ Py.zfill 2 (month t) +:+ Py.zfill 2 (day t)
  +:+ "_" +:+ Py.zfill 2 (hour t) +:+ Py.zfill 2 (minute t)
  +:+ Py.zfill 2 (second t).

(** *** HTTP *)

(** A header value is a literal text or an f-string [f"{prefix}{value}"]
    over an object. *)
Inductive header_value :=
| Literal (s : string)
| Formatted (prefix : string) (value : jval).

Inductive http_body :=
| FormData (fields : list (string * option string))
| JsonBody (j : jval).

Record http_request := {
  url : string;
  headers : list (string * header_value);
  body : http_body
}.

(** [json] is what [response.json()] gives: the decoded body, or the
    exception it raises. *)
Record http_response := {
  status_code : nat;
  reason : string;
  response_url : string;
  text : string;
  json : exn + jval
}.

Inductive http_outcome :=
| PostRaises (e : exn)
| PostResponse (r : http_response).

(** *** The recorded interaction

    Every call to a collaborator is recorded with its answer; [st.error]
    messages shown to the user are recorded as well.  The most recent
    event is at the head. *)
Inductive event :=
| EvChat (req : chat_request) (res : chat_outcome)
| EvNow (t : datetime)
| EvS3Upload (put : s3_put) (res : option exn)
| EvHttpPost (req : http_request) (res : http_outcome)
| EvStError (msg : string).

Definition world := list event.

(** The collaborators answer from the interaction so far. *)
Record services := {
  read_file : world -> string -> exn + string;
  openai_chat : world -> chat_request -> chat_outcome;
  datetime_now : world -> datetime;
  s3_upload_fileobj : world -> s3_put -> option exn;
  requests_post : world -> http_request -> http_outcome
}.

(** *** Computations: a result or a raised exception, and the world after *)

Inductive outcome (A : Type) :=
| Returned (a : A)
| Raised (e : exn).
Arguments Returned {A} a.
Arguments Raised {A} e.

Definition M (A : Type) : Type := world -> outcome A * world.

Definition ret {A} (a : A) : M A := fun w => (Returned a, w).

Definition bind {A B} (m : M A) (k : A -> M B) : M B :=
  fun w =>
    match m w with
    | (Returned a, w') => k a w'
    | (Raised e, w') => (Raised e, w')
    end.

Definition raise {A} (e : exn) : M A := fun w => (Raised e, w).

(** [try: m  except cls as e: handler e] *)
Definition try_except {A} (m : M A) (cls : exn_class) (handler : exn -> M A)
  : M A :=
  fun w =>
    match m w with
    | (Raised e, w') =>
        if catches cls e then handler e w' else (Raised e, w')
    | r => r
    end.

(** Run a collaborator on the current world and record the event. *)
Definition call {A} (ask : world -> A) (ev : A -> event) : M A :=
  fun w => let a := ask w in (Returned a, ev a :: w).

Definition st_error (msg : string) : M unit :=
  fun w => (Returned tt, EvStError msg :: w).

End Ext.

Declare Scope py_scope.
Delimit Scope py_scope with py.
Notation "x <- m ;; k" := (Ext.bind m (fun x => k))
  (at level 100, m at next level, right associativity) : py_scope.

(** ** [ai_module.py] *)

Module ai_module.
Import Ext.
Local Open Scope py_scope.

(** The dataclass [ProductListing]. *)
Record ProductListing := {
  title : string;
  description : string;
  category : string;
  postage_weight : spec_float;
  suggested_price : option spec_float
}.

(** The two dictionaries [analyze_product_images] returns:
    [{"analysis": a, "success": True}] and
    [{"error": msg, "success": False}]. *)
Inductive analysis_result :=
| AnalysisSuccess (analysis : option string)
| AnalysisFailure (error : string).

Definition success (r : analysis_result) : bool :=
  match r with
  | AnalysisSuccess _ => true
  | AnalysisFailure _ => false
  end.

Definition dq : string := String (ascii_of_nat 34) EmptyString.
Definition nl : string := String (ascii_of_nat 10) EmptyString.

(** The lines of a triple-quoted literal. *)
Definition lines (ls : list string) : string := String.concat nl ls.

Definition f0_7 : spec_float := Eval vm_compute in Py.float_of_decimal false 7 (-1).
Definition f0_3 : spec_float := Eval vm_compute in Py.float_of_decimal false 3 (-1).

Definition analysis_system_prompt : string :=
  lines
    ["You are an expert eBay listing assistant. Analyze the provided product images and extract detailed information about the product including:";
     "                - Product type and brand";
     "                - Condition assessment";
     "                - Key features and specifications";
     "                - Materials and dimensions if visible";
     "                - Any defects or wear";
     "                - Estimated value range";
     "                ";
     "                Be thorough and accurate in your analysis."].

Definition title_prompt (product_analysis : option string)
    (user_description : string) : string :=
  lines
    [EmptyString;
     "        Based on the product analysis and user description, create an optimized eBay title.";
     "        ";
     "        Product Analysis: " +:+ Py.str_opt product_analysis;
     "        User Description: " +:+ user_description;
     "        ";
     "        Rules for eBay titles:";
     "        - Maximum 80 characters";
     "        - Include brand, model, condition, and key features";
     "        - Use keywords that buyers search for";
     "        - Avoid promotional language like " +:+ dq +:+ "RARE" +:+ dq +:+ " or " +:+ dq +:+ "AMAZING" +:+ dq;
     "        - Include size, color, or other variants if applicable";
     "        ";
     "        Generate only the title, no additional text.";
     "        "].

Definition description_prompt (product_analysis : option string)
    (user_description : string) : string :=
  lines
    [EmptyString;
     "        Create a comprehensive eBay product description based on the analysis and user input.";
     "        ";
     "        Product Analysis: " +:+ Py.str_opt product_analysis;
     "        User Description: " +:+ user_description;
     "        ";
     "        Structure the description with:";
     "        1. Product overview and key features";
     "        2. Detailed specifications";
     "        3. Condition details";
     "        4. Shipping and return information";
     "        5. Professional closing";
     "        ";
     "        Use HTML formatting for better presentation. Include:";
     "        - Bullet points for features";
     "        - Bold text for important information";
     "        - Clear sections and headers";
     "        ";
     "        Make it professional and informative to increase buyer confidence.";
     "        "].

Definition category_prompt (product_analysis : option string)
    (user_description : string) : string :=
  lines
    [EmptyString;
     "        Based on the product analysis, suggest the most appropriate eBay category.";
     "        ";
     "        Product Analysis: " +:+ Py.str_opt product_analysis;
     "        User Description: " +:+ user_description;
     "        ";
     "        Provide the category in this format: " +:+ dq +:+ "Main Category > Subcategory > Specific Category" +:+ dq;
     "        ";
     "        Common eBay categories include:";
     "        - Electronics > Computers & Tablets > Laptops & Netbooks";
     "        - Fashion > Women's Clothing > Tops & Blouses";
     "        - Home & Garden > Kitchen, Dining & Bar > Small Kitchen Appliances";
     "        - Collectibles > Trading Cards > Sports Trading Cards";
     "        - Books > Fiction & Literature > Contemporary Fiction";
     "        ";
     "        Choose the most specific and accurate category possible.";
     "        "].

Definition weight_prompt (product_analysis : option string)
    (user_description : string) : string :=
  lines
    [EmptyString;
     "        Based on the product analysis, estimate the postage weight in kilograms.";
     "        ";
     "        Product Analysis: " +:+ Py.str_opt product_analysis;
     "        User Description: " +:+ user_description;
     "        ";
     "        Consider:";
     "        - Product size and materials";
     "        - Typical weight for similar items";
     "        - Packaging requirements";
     "        - Add 10-15% for packaging materials";
     "        ";
     "        Provide only the numeric weight value in kg (e.g., 0.5 for 500g, 2.0 for 2kg).";
     "        Be conservative and slightly overestimate for accurate shipping costs.";
     "        "].

(** The request every field generator sends: a system line and the
    prompt, on model [gpt-4]. *)
Definition generator_request (system prompt : string) (tokens : nat)
    (temp : spec_float) : chat_request :=
  {| model := "gpt-4";
     messages := [ {| role := "system"; content := Text system |};
                   {| role := "user"; content := Text prompt |} ];
     max_tokens := tokens;
     temperature := Some temp |}.

Definition title_request (product_analysis : option string)
    (user_description : string) : chat_request :=
  generator_request "You are an expert eBay listing title generator."
    (title_prompt product_analysis user_description) 100 f0_7.

Definition description_request (product_analysis : option string)
    (user_description : string) : chat_request :=
  generator_request "You are an expert eBay listing description writer."
    (description_prompt product_analysis user_description) 2000 f0_7.

Definition category_request (product_analysis : option string)
    (user_description : string) : chat_request :=
  generator_request "You are an expert eBay category classifier."
    (category_prompt product_analysis user_description) 100 Py.f0_5.

Definition weight_request (product_analysis : option string)
    (user_description : string) : chat_request :=
  generator_request "You are an expert shipping weight estimator."
    (weight_prompt product_analysis user_description) 50 f0_3.

(** The entry of [image_contents] for one encoded image. *)
Definition image_content (base64_image : string) : content_part :=
  ImageUrlPart ("data:image/jpeg;base64," +:+ base64_image).

Definition analysis_request (image_contents : list content_part)
    (user_description : string) : chat_request :=
  {| model := "gpt-4-vision-preview";
     messages :=
       [ {| role := "system"; content := Text analysis_system_prompt |};
         {| role := "user";
            content :=
              Parts
                ([TextPart
                    ("Please analyze these product images. Additional user description: "
                     +:+ user_description)]
                 ++ image_contents) |} ];
     max_tokens := 1000;
     temperature := None |}.

(** The image parts of the user message of a request. *)
Definition request_images (req : chat_request) : list string :=
  flat_map
    (fun m =>
       match content m with
       | Parts ps =>
           flat_map
             (fun p => match p with ImageUrlPart u => [u] | TextPart _ => [] end)
             ps
       | Text _ => []
       end)
    (messages req).

Section Generator.

(** The collaborators, and the builtin [float] applied to a string
    ([None] for the [ValueError] of a text that is not a number). *)
Variable E : services.
Variable float : string -> option spec_float.

Definition encode_image (image_path : string) : M string :=
  fun w =>
    match read_file E w image_path with
    | inl e => (Raised e, w)
    | inr image_bytes => (Returned (Py.b64encode image_bytes), w)
    end.

(** [openai.ChatCompletion.create(...)], giving [response.choices]. *)
Definition ChatCompletion_create (req : chat_request)
  : M (list (option string)) :=
  res <- call (fun w => openai_chat E w req) (EvChat req) ;;
  match res with
  | ChatRaises e => raise e
  | ChatResponse choices => ret choices
  end.

(** [response.choices[0].message.content] *)
Definition first_content (choices : list (option string))
  : M (option string) :=
  match choices with
  | c :: _ => ret c
  | [] => raise (mkExn IndexError "list index out of range")
  end.

(** [content.strip()] *)
Definition content_strip (content : option string) : M string :=
  match content with
  | Some s => ret (Py.strip s)
  | None =>
      raise (mkExn AttributeError
               "'NoneType' object has no attribute 'strip'")
  end.

(** The loop that fills [image_contents]. *)
Fixpoint encode_images (image_paths : list string)
    (image_contents : list content_part) : M (list content_part) :=
  match image_paths with
  | [] => ret image_contents
  | image_path :: rest =>
      base64_image <- encode_image image_path ;;
      encode_images rest (image_contents ++ [image_content base64_image])
  end.

Definition analyze_product_images (image_paths : list string)
    (user_description : string) : M analysis_result :=
  image_contents <- encode_images (firstn 6 image_paths) [] ;;
  try_except
    (choices <- ChatCompletion_create
                  (analysis_request image_contents user_description) ;;
     analysis <- first_content choices ;;
     ret (AnalysisSuccess analysis))
    Exception
    (fun e => ret (AnalysisFailure (str e))).

Definition generate_ebay_title (product_analysis : option string)
    (user_description : string) : M string :=
  try_except
    (choices <- ChatCompletion_create
                  (title_request product_analysis user_description) ;;
     content <- first_content choices ;;
     title <- content_strip content ;;
     ret (if (80 <? String.length title)%nat
          then Py.prefix 80 title else title))
    Exception
    (fun e => ret ("Error generating title: " +:+ str e)).

Definition generate_ebay_description (product_analysis : option string)
    (user_description : string) : M string :=
  try_except
    (choices <- ChatCompletion_create
                  (description_request product_analysis user_description) ;;
     content <- first_content choices ;;
     content_strip content)
    Exception
    (fun e => ret ("<p>Error generating description: " +:+ str e +:+ "</p>")).

Definition categorize_product (product_analysis : option string)
    (user_description : string) : M string :=
  try_except
    (choices <- ChatCompletion_create
                  (category_request product_analysis user_description) ;;
     content <- first_content choices ;;
     content_strip content)
    Exception
    (fun e => ret ("Error categorizing product: " +:+ str e)).

(** [float(weight_str)] *)
Definition to_float (weight_str : string) : M spec_float :=
  match float weight_str with
  | Some weight => ret weight
  | None =>
      raise (mkExn ValueError
               ("could not convert string to float: '" +:+ weight_str +:+ "'"))
  end.

Definition estimate_postage_weight (product_analysis : option string)
    (user_description : string) : M spec_float :=
  try_except
    (choices <- ChatCompletion_create
                  (weight_request product_analysis user_description) ;;
     content <- first_content choices ;;
     weight_str <- content_strip content ;;
     try_except
       (weight <- to_float weight_str ;;
        ret (Py.max Py.f0_1 weight))
       ValueError
       (fun _ => ret Py.f0_5))
    Exception
    (fun _ => ret Py.f0_5).

Definition generate_complete_listing (image_paths : list string)
    (user_description : string) : M ProductListing :=
  analysis_result <- analyze_product_images image_paths user_description ;;
  match analysis_result with
  | AnalysisFailure error =>
      raise (mkExn Exception ("Failed to analyze images: " +:+ error))
  | AnalysisSuccess product_analysis =>
      title <- generate_ebay_title product_analysis user_description ;;
      description <-
        generate_ebay_description product_analysis user_description ;;
      category <- categorize_product product_analysis user_description ;;
      weight <- estimate_postage_weight product_analysis user_description ;;
      ret {| title := title;
             description := description;
             category := category;
             postage_weight := weight;
             suggested_price := None |}
  end.

End Generator.

(** The object [eBayListingGenerator(api_key)]: it holds its key, or the
    constructor raises. *)
Record eBayListingGenerator := { api_key : string }.

Definition eBayListingGenerator_init (environ : gmap string string)
    (key : option string) : exn + eBayListingGenerator :=
  match Py.or_else key (environ !! "OPENAI_API_KEY") with
  | Some (String c k) => inr {| api_key := String c k |}
  | _ => inl (mkExn ValueError "OpenAI API key is required")
  end.

End ai_module.

(** ** [app.py] *)

Module app.
Import Ext.
Local Open Scope py_scope.

(** An open in-memory file object: its bytes and the read position. *)
Record file_obj := { data : string; position : nat }.

Definition seek (f : file_obj) (offset : nat) : file_obj :=
  {| data := data f; position := offset |}.

(** What a reader gets from the current position to the end. *)
Definition read (f : file_obj) : string := Py.suffix (position f) (data f).

(** [os.getenv] over the process environment. *)
Definition getenv (environ : gmap string string) (key : string)
  : option string := environ !! key.

Definition getenv_default (environ : gmap string string) (key dflt : string)
  : string := default dflt (environ !! key).

Record CloudStorageManager := {
  storage_type : string;
  bucket_name : option string
}.

(** The arguments of [boto3.client]. *)
Record client_args := {
  service_name : string;
  aws_access_key_id : option string;
  aws_secret_access_key : option string;
  region_name : string
}.

Definition s3_client_args (environ : gmap string string) : client_args :=
  {| service_name := "s3";
     aws_access_key_id := getenv environ "AWS_ACCESS_KEY_ID";
     aws_secret_access_key := getenv environ "AWS_SECRET_ACCESS_KEY";
     region_name := getenv_default environ "AWS_REGION" "us-east-1" |}.

(** [CloudStorageManager(storage_type)].  [boto3_client] stands for
    [boto3.client]: [Some e] when it raises [e], and then the constructor
    raises [e] before it reads the bucket name.  With another storage type
    no client is made and no bucket name is set. *)
Definition CloudStorageManager_init
    (boto3_client : client_args -> option exn)
    (environ : gmap string string) (storage_type : string)
  : exn + CloudStorageManager :=
  if String.eqb storage_type "s3" then
    match boto3_client (s3_client_args environ) with
    | Some e => inl e
    | None =>
        inr {| storage_type := storage_type;
               bucket_name := getenv environ "S3_BUCKET_NAME" |}
    end
  else inr {| storage_type := storage_type; bucket_name := None |}.

Record eBayAPIManager := {
  client_id : option string;
  client_secret : option string;
  redirect_uri : option string;
  access_token : jval;
  refresh_token : jval;
  sandbox_base_url : string;
  production_base_url : string;
  is_sandbox : bool;
  base_url : string
}.

Definition eBayAPIManager_init (environ : gmap string string)
  : eBayAPIManager :=
  let sandbox_base_url := "https://api.sandbox.ebay.com" in
  let production_base_url := "https://api.ebay.com" in
  let is_sandbox :=
    String.eqb (Py.lower (getenv_default environ "EBAY_SANDBOX" "true"))
      "true" in
  {| client_id := getenv environ "EBAY_CLIENT_ID";
     client_secret := getenv environ "EBAY_CLIENT_SECRET";
     redirect_uri := getenv environ "EBAY_REDIRECT_URI";
     access_token := JNull;
     refresh_token := JNull;
     sandbox_base_url := sandbox_base_url;
     production_base_url := production_base_url;
     is_sandbox := is_sandbox;
     base_url :=
       if is_sandbox then sandbox_base_url else production_base_url |}.

Definition get_oauth_url (self : eBayAPIManager) : string :=
  let scope := "https://api.ebay.com/oauth/api_scope/sell.inventory" in
  "https://auth.ebay.com/oauth2/authorize?client_id="
  +:+ Py.str_opt (client_id self)
  +:+ "&response_type=code&redirect_uri=" +:+ Py.str_opt (redirect_uri self)
  +:+ "&scope=" +:+ scope.

(** The request of the token exchange. *)
Definition token_request (self : eBayAPIManager)
    (authorization_code : string) : http_request :=
  let token_url := base_url self +:+ "/identity/v1/oauth2/token" in
  {| url := token_url;
     headers :=
       [ ("Content-Type", Literal "application/x-www-form-urlencoded");
         ("Authorization",
          Literal
            ("Basic "
             +:+ Py.b64encode
                   (Py.encode_utf8
                      (Py.str_opt (client_id self) +:+ ":"
                       +:+ Py.str_opt (client_secret self))))) ];
     body :=
       FormData
         [ ("grant_type", Some "authorization_code");
           ("code", Some authorization_code);
           ("redirect_uri", redirect_uri self) ] |}.

(** The dictionary [listing_data]. *)
Definition listing_data (listing : ai_module.ProductListing)
    (image_urls : list string) : jval :=
  JObj
    [ ("product",
       JObj
         [ ("title", JStr (ai_module.title listing));
           ("description", JStr (ai_module.description listing));
           ("imageUrls", JArr (map JStr image_urls));
           ("aspects",
            JObj [ ("Brand", JArr [JStr "Generic"]);
                   ("Condition", JArr [JStr "Used"]) ]) ]);
      ("condition", JStr "USED_EXCELLENT");
      ("format", JStr "FIXED_PRICE");
      ("marketplaceId", JStr "EBAY_US");
      ("categoryId", JStr "1234");
      ("listingPolicies",
       JObj [ ("fulfillmentPolicyId", JStr "policy_id");
              ("paymentPolicyId", JStr "policy_id");
              ("returnPolicyId", JStr "policy_id") ]);
      ("pricingSummary",
       JObj [ ("price",
               JObj [ ("currency", JStr "USD"); ("value", JStr "10.00") ]) ]);
      ("merchantLocationKey", JStr "warehouse_location");
      ("tax",
       JObj [ ("applyTax", JBool true);
              ("vatPercentage", JFloat (S754_zero false)) ]) ].

(** The request that creates the draft. *)
Definition draft_request (self : eBayAPIManager)
    (listing : ai_module.ProductListing) (image_urls : list string)
  : http_request :=
  {| url := base_url self +:+ "/sell/inventory/v1/inventory_item/draft";
     headers :=
       [ ("Authorization", Formatted "Bearer " (access_token self));
         ("Content-Type", Literal "application/json");
         ("X-EBAY-C-MARKETPLACE-ID", Literal "EBAY_US") ];
     body := JsonBody (listing_data listing image_urls) |}.

(** The dictionaries [create_draft_listing] returns. *)
Inductive draft_result :=
| DraftSuccess (listing_id : jval) (message : string)
| DraftFailure (error : string).

Section Managers.

Variable E : services.

(** [self.s3_client.upload_fileobj(image_file, bucket, filename,
    ExtraArgs=...)] *)
Definition upload_fileobj (image_file : file_obj) (bucket : option string)
    (filename : string) : M unit :=
  let put := {| Bucket := bucket; Key := filename; Body := read image_file;
                ContentType := "image/jpeg"; ACL := "public-read" |} in
  res <- call (fun w => s3_upload_fileobj E w put) (EvS3Upload put) ;;
  match res with
  | Some e => raise e
  | None => ret tt
  end.

Definition upload_image (self : CloudStorageManager) (image_file : file_obj)
    (filename : string) : M (option string) :=
  try_except
    (if String.eqb (storage_type self) "s3" then
       _ <- upload_fileobj image_file (bucket_name self) filename ;;
       ret (Some ("https://" +:+ Py.str_opt (bucket_name self)
                  +:+ ".s3.amazonaws.com/" +:+ filename))
     else ret None)
    Exception
    (fun e =>
       _ <- st_error ("Error uploading image: " +:+ str e) ;;
       ret None).

(** [datetime.now()] *)
Definition now : M datetime := call (datetime_now E) EvNow.

(** The name given to the item at position [i]. *)
Definition object_name (timestamp : string) (i : nat) : string :=
  "product_images/" +:+ timestamp +:+ "_" +:+ Py.str_nat i +:+ ".jpg".

(** [if url:] on a string or [None]. *)
Definition url_truthy (url : option string) : bool :=
  match url with
  | Some (String _ _) => true
  | _ => false
  end.

(** The body of the loop of [upload_multiple_images] for the item at
    position [i], given [urls] so far. *)
Definition upload_item (self : CloudStorageManager) (i : nat)
    (image_file : option file_obj) (urls : list string) : M (list string) :=
  match image_file with
  | Some f =>
      t <- now ;;
      let timestamp := strftime t in
      let filename := object_name timestamp i in
      let f := seek f 0 in
      url <- upload_image self f filename ;;
      ret (match url with
           | Some u => if url_truthy url then urls ++ [u] else urls
           | None => urls
           end)
  | None => ret urls
  end.

Fixpoint upload_loop (self : CloudStorageManager) (i : nat)
    (image_files : list (option file_obj)) (urls : list string)
  : M (list string) :=
  match image_files with
  | [] => ret urls
  | image_file :: rest =>
      urls' <- upload_item self i image_file urls ;;
      upload_loop self (S i) rest urls'
  end.

Definition upload_multiple_images (self : CloudStorageManager)
    (image_files : list (option file_obj)) : M (list string) :=
  upload_loop self 0 image_files [].

(** [requests.post(...)] *)
Definition post (req : http_request) : M http_response :=
  res <- call (fun w => requests_post E w req) (EvHttpPost req) ;;
  match res with
  | PostRaises e => raise e
  | PostResponse r => ret r
  end.

Definition is_http_error (status : nat) : bool :=
  (400 <=? status)%nat && (status <? 600)%nat.

(** [response.raise_for_status()] *)
Definition raise_for_status (r : http_response) : M unit :=
  if is_http_error (status_code r) then
    raise (mkExn RequestException
             (Py.str_nat (status_code r)
              +:+ (if (status_code r <? 500)%nat then " Client Error: "
                   else " Server Error: ")
              +:+ reason r +:+ " for url: " +:+ response_url r))
  else ret tt.

(** [response.json()] *)
Definition response_json (r : http_response) : M jval :=
  match json r with
  | inl e => raise e
  | inr v => ret v
  end.

(** [d.get(key)] *)
Definition dict_get (d : jval) (key : string) : M jval :=
  match d with
  | JObj kvs => ret (default JNull (assoc key kvs))
  | _ =>
      raise (mkExn AttributeError
               ("'" +:+ type_name d +:+ "' object has no attribute 'get'"))
  end.

Definition set_access_token (self : eBayAPIManager) (v : jval)
  : eBayAPIManager :=
  {| client_id := client_id self; client_secret := client_secret self;
     redirect_uri := redirect_uri self;
     access_token := v; refresh_token := refresh_token self;
     sandbox_base_url := sandbox_base_url self;
     production_base_url := production_base_url self;
     is_sandbox := is_sandbox self; base_url := base_url self |}.

Definition set_refresh_token (self : eBayAPIManager) (v : jval)
  : eBayAPIManager :=
  {| client_id := client_id self; client_secret := client_secret self;
     redirect_uri := redirect_uri self;
     access_token := access_token self; refresh_token := v;
     sandbox_base_url := sandbox_base_url self;
     production_base_url := production_base_url self;
     is_sandbox := is_sandbox self; base_url := base_url self |}.

(** The method returns its result together with the manager as the call
    leaves it. *)
Definition get_access_token (self : eBayAPIManager)
    (authorization_code : string) : M (bool * eBayAPIManager) :=
  try_except
    (response <- post (token_request self authorization_code) ;;
     _ <- raise_for_status response ;;
     token_data <- response_json response ;;
     access <- dict_get token_data "access_token" ;;
     let self := set_access_token self access in
     refresh <- dict_get token_data "refresh_token" ;;
     let self := set_refresh_token self refresh in
     ret (true, self))
    RequestException
    (fun e =>
       _ <- st_error ("Error getting access token: " +:+ str e) ;;
       ret (false, self)).

Definition create_draft_listing (self : eBayAPIManager)
    (listing : ai_module.ProductListing) (image_urls : list string)
  : M draft_result :=
  if negb (truthy (access_token self)) then
    ret (DraftFailure "No access token available")
  else
    try_except
      (response <- post (draft_request self listing image_urls) ;;
       if (status_code response =? 201)%nat then
         data <- response_json response ;;
         sku <- dict_get data "sku" ;;
         ret (DraftSuccess sku "Draft listing created successfully")
       else
         ret (DraftFailure
                ("API Error: " +:+ Py.str_nat (status_code response)
                 +:+ " - " +:+ text response)))
      Exception
      (fun e => ret (DraftFailure (str e))).

End Managers.

(** *** Configuration *)

(** What the page shows.  A text with characters beyond Latin-1 is kept as
    its UTF-8 bytes; no length of such a text is ever taken.  [StImage]
    is [st.image] inside column [column]; [StJson] is [st.json];
    [StFormat] is a call whose text is the f-string [f"{prefix}{value}"]. *)
Inductive st_call :=
| StSubheader (text : string)
| StWrite (text : string)
| StWarning (text : string)
| StInfo (text : string)
| StSuccess (text : string)
| StError (text : string)
| StImage (column : nat) (image : file_obj) (caption : string)
| StJson (value : jval)
| StFormat (prefix : string) (value : jval).

(** The dictionary [required_vars] of [check_configuration], in its
    order. *)
Definition required_vars : list (string * string) :=
  [ ("OPENAI_API_KEY", "OpenAI API key for AI generation");
    ("EBAY_CLIENT_ID", "eBay API client ID");
    ("EBAY_CLIENT_SECRET", "eBay API client secret");
    ("EBAY_REDIRECT_URI", "eBay OAuth redirect URI");
    ("AWS_ACCESS_KEY_ID", "AWS access key for S3 storage");
    ("AWS_SECRET_ACCESS_KEY", "AWS secret key for S3 storage");
    ("S3_BUCKET_NAME", "S3 bucket name for image storage") ].

(** The loop that fills [missing]. *)
Fixpoint missing_of (environ : gmap string string)
    (vars : list (string * string)) (missing : list string) : list string :=
  match vars with
  | [] => missing
  | (var, description) :: rest =>
      missing_of environ rest
        (if negb (Py.str_truthy (getenv environ var))
         then missing ++ [var +:+ " (" +:+ description +:+ ")"]
         else missing)
  end.

(** A variable is missing when [os.getenv] gives [None] or the empty
    string; the entry of [missing] for such a variable. *)
Definition unset (environ : gmap string string) (vd : string * string)
  : bool :=
  negb (Py.str_truthy (getenv environ (fst vd))).

Definition missing_line (vd : string * string) : string :=
  fst vd +:+ " (" +:+ snd vd +:+ ")".

Definition configuration_help : string :=
  ai_module.lines
    [EmptyString;
     "        Please set the following environment variables:";
     "        ";
     "        ```bash";
     "        export OPENAI_API_KEY=" +:+ ai_module.dq +:+ "your_openai_api_key" +:+ ai_module.dq;
     "        export EBAY_CLIENT_ID=" +:+ ai_module.dq +:+ "your_ebay_client_id" +:+ ai_module.dq;
     "        export EBAY_CLIENT_SECRET=" +:+ ai_module.dq +:+ "your_ebay_client_secret" +:+ ai_module.dq;
     "        export EBAY_REDIRECT_URI=" +:+ ai_module.dq +:+ "your_redirect_uri" +:+ ai_module.dq;
     "        export AWS_ACCESS_KEY_ID=" +:+ ai_module.dq +:+ "your_aws_access_key" +:+ ai_module.dq;
     "        export AWS_SECRET_ACCESS_KEY=" +:+ ai_module.dq +:+ "your_aws_secret_key" +:+ ai_module.dq;
     "        export S3_BUCKET_NAME=" +:+ ai_module.dq +:+ "your_s3_bucket_name" +:+ ai_module.dq;
     "        export EBAY_SANDBOX=" +:+ ai_module.dq +:+ "true" +:+ ai_module.dq +:+ "  # Use false for production";
     "        ```";
     "        "].

(** [check_configuration()]: its result and what it shows. *)
Definition check_configuration (environ : gmap string string)
  : bool * list st_call :=
  let missing := missing_of environ required_vars [] in
  match missing with
  | _ :: _ =>
      (false,
       [StError "Missing required environment variables:"]
       ++ map (fun var => StWrite ("- " +:+ var)) missing
       ++ [StInfo configuration_help])
  | [] => (true, [])
  end.

(** The check at the top of [main()]: the list [missing_vars], and the
    message shown before [st.stop()] when it is not empty. *)
Definition main_required_vars : list string :=
  ["OPENAI_API_KEY"; "EBAY_CLIENT_ID"; "AWS_ACCESS_KEY_ID"].

Definition main_missing_vars (environ : gmap string string) : list string :=
  filter (fun var => negb (Py.str_truthy (getenv environ var)) = true)
    main_required_vars.

Definition main_configuration_error (environ : gmap string string)
  : option string :=
  match main_missing_vars environ with
  | (_ :: _) as missing_vars =>
      Some ("Missing environment variables: " +:+ Py.join ", " missing_vars)
  | [] => None
  end.

(** *** Session state *)

(** The values the page keeps in [st.session_state]. *)
Inductive session_item :=
| ItemFile (f : file_obj)
| ItemUrl (u : string).

Inductive session_value :=
| SNone
| SBool (b : bool)
| SList (items : list session_item)
| SListing (listing : ai_module.ProductListing).

(** [if key not in st.session_state: st.session_state[key] = value] *)
Definition set_if_absent (key : string) (value : session_value)
    (session_state : gmap string session_value)
  : gmap string session_value :=
  match session_state !! key with
  | Some _ => session_state
  | None => <[key := value]> session_state
  end.

Definition init_session_state (session_state : gmap string session_value)
  : gmap string session_value :=
  let s := set_if_absent "uploaded_images" (SList []) session_state in
  let s := set_if_absent "generated_listing" SNone s in
  let s := set_if_absent "image_urls" (SList []) s in
  set_if_absent "listing_created" (SBool false) s.

(** The value [init_session_state] gives to a key it sets. *)
Definition session_default (key : string) : option session_value :=
  if String.eqb key "uploaded_images" then Some (SList [])
  else if String.eqb key "generated_listing" then Some SNone
  else if String.eqb key "image_urls" then Some (SList [])
  else if String.eqb key "listing_created" then Some (SBool false)
  else None.

(** The loop of [Create Another Listing]: every key is deleted. *)
Definition reset_session_state (session_state : gmap string session_value)
  : gmap string session_value :=
  foldr (fun key s => delete key s) session_state
    (map fst (map_to_list session_state)).

End app.

(** ** [app.py]: the page *)

Module page.
Import Ext app.

(** [st.session_state] once [init_session_state] has run: the four keys,
    each with the kind of value the page stores under it. *)
Record session := {
  uploaded_images : list file_obj;
  generated_listing : option ai_module.ProductListing;
  image_urls : list string;
  listing_created : bool
}.

(** The page: its session, the files on disk, and what it has shown. *)
Record page := {
  state : session;
  disk : gmap string string;
  shown : list st_call
}.

Definition show (calls : list st_call) (p : page) : page :=
  {| state := state p; disk := disk p; shown := shown p ++ calls |}.

Definition set_uploaded_images (v : list file_obj) (p : page) : page :=
  {| state := {| uploaded_images := v;
                 generated_listing := generated_listing (state p);
                 image_urls := image_urls (state p);
                 listing_created := listing_created (state p) |};
     disk := disk p; shown := shown p |}.

Definition set_generated_listing (v : option ai_module.ProductListing)
    (p : page) : page :=
  {| state := {| uploaded_images := uploaded_images (state p);
                 generated_listing := v;
                 image_urls := image_urls (state p);
                 listing_created := listing_created (state p) |};
     disk := disk p; shown := shown p |}.

Definition set_listing_created (v : bool) (p : page) : page :=
  {| state := {| uploaded_images := uploaded_images (state p);
                 generated_listing := generated_listing (state p);
                 image_urls := image_urls (state p);
                 listing_created := v |};
     disk := disk p; shown := shown p |}.

Definition set_disk (v : gmap string string) (p : page) : page :=
  {| state := state p; disk := v; shown := shown p |}.

Section Page.

(** The collaborators are parameters, with the builtin [float],
    [boto3.client] and the two calls of the preview: [Image.open] on an
    uploaded file and [st.image] on the image it gives, which decodes the
    file.  Each of the two raises ([inl e]) or reads from the file and
    leaves it at a position ([inr position]); neither changes the bytes of
    the file. *)
Variable E : services.
Variable float : string -> option spec_float.
Variable boto3_client : client_args -> option exn.
Variable Image_open : file_obj -> exn + nat.
Variable st_image : file_obj -> exn + nat.

(** The body of the loop that previews the images: the file as the two
    calls leave it. *)
Definition preview_image (uploaded_file : file_obj) : exn + file_obj :=
  match Image_open uploaded_file with
  | inl e => inl e
  | inr position =>
      let image := {| data := data uploaded_file; position := position |} in
      match st_image image with
      | inl e => inl e
      | inr position =>
          inr {| data := data uploaded_file; position := position |}
      end
  end.

(** The loop that previews the images, three columns wide; it gives back
    the files as the reads have left them. *)
Fixpoint preview_images (i : nat) (uploaded_files : list file_obj)
    (p : page) : (exn + list file_obj) * page :=
  match uploaded_files with
  | [] => (inr [], p)
  | uploaded_file :: rest =>
      match preview_image uploaded_file with
      | inl e => (inl e, p)
      | inr uploaded_file =>
          match
            preview_images (S i) rest
              (show [StImage (i mod 3) uploaded_file
                       ("Image " +:+ Py.str_nat (i + 1))] p)
          with
          | (inr rest, p) => (inr (uploaded_file :: rest), p)
          | (inl e, p) => (inl e, p)
          end
      end
  end.

(** [display_image_upload()], given what the file uploader returns. *)
Definition display_image_upload (uploaded_files : list file_obj) (p : page)
  : outcome bool * page :=
  let p :=
    show [StSubheader "📸 Upload Product Images";
          StWrite "Upload up to 6 high-quality photos of your product. Good lighting and multiple angles help generate better listings."]
      p in
  match uploaded_files with
  | _ :: _ =>
      let '(uploaded_files, p) :=
        if (6 <? length uploaded_files)%nat
        then (firstn 6 uploaded_files,
              show [StWarning "Only the first 6 images will be used."] p)
        else (uploaded_files, p) in
      let p :=
        show [StWrite ("**" +:+ Py.str_nat (length uploaded_files)
                       +:+ " image(s) uploaded:**")] p in
      match preview_images 0 uploaded_files p with
      | (inl e, p) => (Raised e, p)
      | (inr uploaded_files, p) =>
          (Returned true, set_uploaded_images uploaded_files p)
      end
  | [] => (Returned false, p)
  end.

(** The collaborators with [open] reading the files of [files]. *)
Definition with_files (files : gmap string string) : services :=
  {| read_file := fun _ path =>
       match files !! path with
       | Some image_bytes => inr image_bytes
       | None =>
           inl (mkExn OSError
                  ("[Errno 2] No such file or directory: '" +:+ path +:+ "'"))
       end;
     openai_chat := openai_chat E;
     datetime_now := datetime_now E;
     s3_upload_fileobj := s3_upload_fileobj E;
     requests_post := requests_post E |}.

(** The loop that saves the uploaded images to temporary files: [names]
    are the names the temporary files get, in order. *)
Fixpoint save_uploads (names : list string) (uploaded_images : list file_obj)
    (files : gmap string string) (temp_paths : list string)
  : (exn + list string) * gmap string string :=
  match uploaded_images with
  | [] => (inr temp_paths, files)
  | uploaded_file :: rest =>
      match names with
      | name :: names' =>
          save_uploads names' rest (<[name := data uploaded_file]> files)
            (temp_paths ++ [name])
      | [] =>
          (inl (mkExn OSError
                  "[Errno 17] No usable temporary file name found"),
           files)
      end
  end.

(** The loop that removes the temporary files; a file that is not there
    is passed over. *)
Definition unlink_all (temp_paths : list string)
    (files : gmap string string) : gmap string string :=
  fold_left (fun fs path => delete path fs) temp_paths files.

(** The block of [main] under the button [Generate eBay Listing]. *)
Definition main_generate_listing (environ : gmap string string)
    (names : list string) (user_description : string) (p : page)
  : M page :=
  fun w =>
    let failed (e : exn) (p : page) :=
      show [StError ("Error generating listing: " +:+ str e)] p in
    match ai_module.eBayListingGenerator_init environ None with
    | inl e => (Returned (failed e p), w)
    | inr generator =>
        match save_uploads names (uploaded_images (state p)) (disk p) [] with
        | (inl e, files) => (Returned (failed e (set_disk files p)), w)
        | (inr temp_paths, files) =>
            let p := set_disk files p in
            match ai_module.generate_complete_listing (with_files files)
                    float temp_paths user_description w with
            | (Returned listing, w') =>
                let p := set_generated_listing (Some listing) p in
                let p := set_disk (unlink_all temp_paths (disk p)) p in
                (Returned
                   (show [StSuccess "✅ Listing generated successfully!"] p),
                 w')
            | (Raised e, w') => (Returned (failed e p), w')
            end
        end
    end.

(** The block of [main] under the button [Upload Images to Cloud], over
    the images of the session: the value it assigns to
    [st.session_state.image_urls] ([None] when it does not get there) and
    what it shows. *)
Definition main_upload_images (environ : gmap string string)
    (uploaded_images : list file_obj)
  : M (option (list string) * list st_call) :=
  fun w =>
    let failed (e : exn) :=
      (None, [StError ("Error uploading images: " +:+ str e)]) in
    match CloudStorageManager_init boto3_client environ "s3" with
    | inl e => (Returned (failed e), w)
    | inr storage_manager =>
        let image_files :=
          map (fun uploaded_file => Some (seek uploaded_file 0))
            uploaded_images in
        match upload_multiple_images E storage_manager image_files w with
        | (Returned image_urls, w') =>
            (Returned
               (Some image_urls,
                StSuccess ("✅ " +:+ Py.str_nat (length image_urls)
                           +:+ " images uploaded successfully!")
                :: imap (fun i url =>
                           StWrite ("Image " +:+ Py.str_nat (i + 1) +:+ ": "
                                    +:+ url))
                     image_urls),
             w')
        | (Raised e, w') => (Returned (failed e), w')
        end
    end.

(** The dictionary [listing_preview]. *)
Definition listing_preview (final_listing : ai_module.ProductListing)
    (urls : list string) : jval :=
  JObj
    [ ("title", JStr (ai_module.title final_listing));
      ("description",
       JStr (Py.prefix 200 (ai_module.description final_listing) +:+ "..."));
      ("category", JStr (ai_module.category final_listing));
      ("weight", JFloat (ai_module.postage_weight final_listing));
      ("image_count", JInt (Z.of_nat (length urls)));
      ("image_urls", JArr (map JStr urls)) ].

(** The block of [main] under the button [Create eBay Draft Listing]. *)
Definition main_create_draft (environ : gmap string string)
    (final_listing : ai_module.ProductListing) (p : page) : M page :=
  fun w =>
    let ebay_manager := eBayAPIManager_init environ in
    if negb (truthy (access_token ebay_manager)) then
      (Returned
         (show
            [StWarning "eBay authentication required. This would normally redirect to eBay for authorization.";
             StInfo "Draft listing would be created with the following details:";
             StJson (listing_preview final_listing (image_urls (state p)))]
            p),
       w)
    else
      match create_draft_listing E ebay_manager final_listing
              (image_urls (state p)) w with
      | (Returned (DraftSuccess listing_id _), w') =>
          (Returned
             (set_listing_created true
                (show [StFormat "✅ Draft listing created! ID: " listing_id]
                   p)),
           w')
      | (Returned (DraftFailure error), w') =>
          (Returned
             (show [StError ("❌ Error creating listing: " +:+ error)] p),
           w')
      | (Raised e, w') =>
          (Returned
             (show [StError ("Error creating eBay listing: " +:+ str e)] p),
           w')
      end.

End Page.

End page.

(** ** Observations on a recorded interaction *)

Module Trace.
Import Ext.

(** The world after [req] has been sent to the chat service in [w]. *)
Definition after_chat (E : services) (w : world) (req : chat_request)
  : world :=
  EvChat req (openai_chat E w req) :: w.

(** The number of field-generator requests (those on model [gpt-4])
    recorded in a world. *)
Fixpoint generator_calls (w : world) : nat :=
  match w with
  | EvChat req _ :: w' =>
      (if String.eqb (model req) "gpt-4" then 1 else 0) + generator_calls w'
  | _ :: w' => generator_calls w'
  | [] => 0
  end.

(** The uploads among events given oldest first, with their results. *)
Fixpoint uploads (evs : list event) : list (s3_put * option exn) :=
  match evs with
  | EvS3Upload put res :: evs' => (put, res) :: uploads evs'
  | _ :: evs' => uploads evs'
  | [] => []
  end.

(** The uploads the store accepted. *)
Definition accepted (ups : list (s3_put * option exn)) : list s3_put :=
  omap (fun x => match snd x with None => Some (fst x) | Some _ => None end)
    ups.

(** The public address of a stored object. *)
Definition public_url (put : s3_put) : string :=
  "https://" +:+ Py.str_opt (Bucket put) +:+ ".s3.amazonaws.com/"
  +:+ Key put.

(** The value of a header of a request. *)
Fixpoint assoc_header (name : string) (hs : list (string * header_value))
  : option header_value :=
  match hs with
  | [] => None
  | (n, v) :: rest => if String.eqb n name then Some v else assoc_header name rest
  end.

(** The number of [st.error] messages among events. *)
Fixpoint st_errors (evs : list event) : nat :=
  match evs with
  | EvStError _ :: evs' => S (st_errors evs')
  | _ :: evs' => st_errors evs'
  | [] => 0
  end.

(** The number of clock readings among events. *)
Fixpoint clock_reads (evs : list event) : nat :=
  match evs with
  | EvNow _ :: evs' => S (clock_reads evs')
  | _ :: evs' => clock_reads evs'
  | [] => 0
  end.

(** The items that are not [None], with their positions counted from [i]. *)
Fixpoint present {A} (i : nat) (items : list (option A)) : list (nat * A) :=
  match items with
  | Some a :: rest => (i, a) :: present (S i) rest
  | None :: rest => present (S i) rest
  | [] => []
  end.

(** The upload [upload_image] asks of the store. *)
Definition put_of (self : app.CloudStorageManager) (f : app.file_obj)
    (filename : string) : s3_put :=
  {| Bucket := app.bucket_name self; Key := filename; Body := app.read f;
     ContentType := "image/jpeg"; ACL := "public-read" |}.

(** Among the events [new] recorded on top of the world [w], the upload
    [up] comes right after a reading of the clock; it stores the bytes of
    the item [item] of the input in the bucket of the manager, under the
    name [product_images/<timestamp>_<position>.jpg] made of that reading
    and of the position of the item, and its result is the answer of the
    store at that moment. *)
Definition stored_as (E : services) (self : app.CloudStorageManager)
    (new w : world) (item : nat * app.file_obj) (up : s3_put * option exn)
  : Prop :=
  exists later earlier,
    let w0 := earlier ++ w in
    let t := datetime_now E w0 in
    new = later ++ EvS3Upload (fst up) (snd up) :: EvNow t :: earlier /\
    snd up = s3_upload_fileobj E (EvNow t :: w0) (fst up) /\
    Key (fst up)
    = "product_images/" +:+ strftime t +:+ "_" +:+ Py.str_nat (fst item)
      +:+ ".jpg" /\
    Body (fst up) = app.data (snd item) /\
    Bucket (fst up) = app.bucket_name self.

End Trace.

(** ** Sample collaborators, for concrete runs *)

Module Samples.
Import Ext.

(** Files exist except [missing.jpg]; a readable file holds its own name.
    The chat service answers by [chat], the store refuses object names
    that end in [_1.jpg], and the marketplace answers every request with
    [resp]. *)
Definition refused (key : string) : bool :=
  String.eqb (Py.suffix (String.length key - 6) key) "_1.jpg".

Definition services_with (chat : chat_request -> chat_outcome)
    (resp : http_outcome) : services :=
  {| read_file := fun _ p =>
       if String.eqb p "missing.jpg"
       then inl (mkExn OSError "No such file or directory: 'missing.jpg'")
       else inr p;
     openai_chat := fun _ req => chat req;
     datetime_now := fun w =>
       {| year := 2025; month := 3; day := 9;
          hour := 14; minute := 5; second := length w |};
     s3_upload_fileobj := fun _ put =>
       if refused (Key put) then Some (mkExn Exception "Access Denied")
       else None;
     requests_post := fun _ _ => resp |}.

Definition unreachable : http_outcome :=
  PostRaises (mkExn RequestException "connection refused").

Definition answering (text : string) : services :=
  services_with (fun _ => ChatResponse [Some text]) unreachable.

Definition failing (msg : string) : services :=
  services_with (fun _ => ChatRaises (mkExn Exception msg)) unreachable.

(** The analysis is answered, every field generator is refused. *)
Definition vision_only : services :=
  services_with
    (fun req =>
       if String.eqb (model req) "gpt-4-vision-preview"
       then ChatResponse [Some "A brown leather jacket"]
       else ChatRaises (mkExn Exception "Rate limit reached"))
    unreachable.

Definition marketplace (resp : http_outcome) : services :=
  services_with (fun _ => ChatResponse []) resp.

(** A token response with a successful status and no token in its body. *)
Definition tokenless : http_response :=
  {| status_code := 200; reason := "OK";
     response_url := "https://api.sandbox.ebay.com/identity/v1/oauth2/token";
     text := "{}"; json := inr (JObj []) |}.

(** A response with a successful status whose body is the JSON text
    [[]]. *)
Definition empty_array : http_response :=
  {| status_code := 200; reason := "OK";
     response_url := "https://api.sandbox.ebay.com/identity/v1/oauth2/token";
     text := "[]"; json := inr (JArr []) |}.

(** A response with a successful status whose body is not JSON. *)
Definition not_json : http_response :=
  {| status_code := 200; reason := "OK";
     response_url := "https://api.sandbox.ebay.com/identity/v1/oauth2/token";
     text := "<html>";
     json := inl (mkExn RequestException
                    "Expecting value: line 1 column 1 (char 0)") |}.

(** A response that refuses the client, and one that grants a token. *)
Definition unauthorized : http_response :=
  {| status_code := 401; reason := "Unauthorized";
     response_url := "https://api.sandbox.ebay.com/identity/v1/oauth2/token";
     text := "{}"; json := inr (JObj [("access_token", JStr "stale")]) |}.

Definition granted : http_response :=
  {| status_code := 200; reason := "OK";
     response_url := "https://api.sandbox.ebay.com/identity/v1/oauth2/token";
     text := "{}";
     json := inr (JObj [("access_token", JStr "v^1.1#t^8");
                        ("expires_in", JInt 7200)]) |}.

(** An environment with every variable of the configuration check. *)
Definition full_environ : gmap string string :=
  <["OPENAI_API_KEY" := "sk-test"]>
    (<["EBAY_CLIENT_ID" := "shop-app"]>
       (<["EBAY_CLIENT_SECRET" := "s3cret"]>
          (<["EBAY_REDIRECT_URI" := "https://shop.example/callback"]>
             (<["AWS_ACCESS_KEY_ID" := "AKIA"]>
                (<["AWS_SECRET_ACCESS_KEY" := "aws-secret"]>
                   (<["S3_BUCKET_NAME" := "shop-images"]> ∅)))))).

(** A page whose session holds two uploaded images, an image reader that
    refuses empty files, and a decoder that finds a file of fewer than
    four bytes truncated. *)
Definition two_images : list app.file_obj :=
  [ {| app.data := "front"; app.position := 0 |};
    {| app.data := "back"; app.position := 0 |} ].

Definition sample_page : page.page :=
  {| page.state :=
       {| page.uploaded_images := two_images;
          page.generated_listing := None;
          page.image_urls := [];
          page.listing_created := false |};
     page.disk := {[ "/tmp/keep.txt" := "kept" ]};
     page.shown := [] |}.

Definition opens (f : app.file_obj) : exn + nat :=
  match app.data f with
  | EmptyString => inl (mkExn OSError "cannot identify image file")
  | image_bytes => inr (String.length image_bytes)
  end.

Definition decodes (image : app.file_obj) : exn + nat :=
  if (String.length (app.data image) <? 4)%nat
  then inl (mkExn OSError "image file is truncated")
  else inr (String.length (app.data image)).

Definition eight_paths : list string :=
  ["1.jpg"; "2.jpg"; "3.jpg"; "4.jpg"; "5.jpg"; "6.jpg"; "7.jpg"; "8.jpg"].

Definition sample_storage : app.CloudStorageManager :=
  {| app.storage_type := "s3"; app.bucket_name := Some "shop-images" |}.

(** A [boto3.client] that accepts every region but the empty one. *)
Definition client_of_region (args : app.client_args) : option exn :=
  match app.region_name args with
  | EmptyString =>
      Some (mkExn ValueError "Invalid endpoint: https://s3..amazonaws.com")
  | _ => None
  end.

Definition sample_file (bytes : string) : option app.file_obj :=
  Some {| app.data := bytes; app.position := String.length bytes |}.

Definition sample_listing : ai_module.ProductListing :=
  {| ai_module.title := "Leather jacket";
     ai_module.description := "<p>Good condition</p>";
     ai_module.category := "Fashion > Men > Coats";
     ai_module.postage_weight := Py.f0_5;
     ai_module.suggested_price := None |}.

End Samples.

(** ** Facts about the runtime pieces *)

Module PyFacts.

Lemma length_prefix (n : nat) (s : string) :
  String.length (Py.prefix n s) = Nat.min n (String.length s).
Proof.
  revert s; induction n as [|n IH]; intros [|c s]; simpl; auto.
Qed.

Lemma prefix_short (n : nat) (s : string) :
  String.length s <= n -> Py.prefix n s = s.
Proof.
  revert s; induction n as [|n IH]; intros [|c s]; simpl; intros H;
    try reflexivity; try lia.
  f_equal; apply IH; lia.
Qed.

(** [strip] does nothing to a stripped text. *)
Lemma lstrip_head (s : string) (c : ascii) (t : string) :
  Py.lstrip s = String c t -> Py.isspace c = false.
Proof.
  induction s as [|a s IH]; cbn [Py.lstrip]; [discriminate|].
  destruct (Py.isspace a) eqn:Ha; [exact IH|].
  intros H; inversion H; subst; exact Ha.
Qed.

Lemma rstrip_cons (c : ascii) (t : string) :
  Py.isspace c = false -> Py.rstrip (String c t) = String c (Py.rstrip t).
Proof.
  intros Hc. cbn [Py.rstrip]. rewrite Hc.
  destruct (Py.rstrip t); reflexivity.
Qed.

Lemma rstrip_idempotent (s : string) : Py.rstrip (Py.rstrip s) = Py.rstrip s.
Proof.
  induction s as [|c s IH]; [reflexivity|].
  cbn [Py.rstrip].
  destruct (Py.rstrip s) as [|c2 r2] eqn:Hr.
  - destruct (Py.isspace c) eqn:Hc; [reflexivity|].
    cbn [Py.rstrip]. now rewrite Hc.
  - cbn [Py.rstrip]. cbn [Py.rstrip] in IH.
    destruct (Py.rstrip r2) eqn:Hr2.
    + destruct (Py.isspace c2); [discriminate | now rewrite IH].
    + now rewrite IH.
Qed.

Lemma strip_idempotent (s : string) : Py.strip (Py.strip s) = Py.strip s.
Proof.
  unfold Py.strip.
  destruct (Py.lstrip s) as [|c t] eqn:Hs; [reflexivity|].
  pose proof (lstrip_head s c t Hs) as Hc.
  rewrite (rstrip_cons c t Hc). cbn [Py.lstrip]. rewrite Hc.
  rewrite <- (rstrip_cons c t Hc). apply rstrip_idempotent.
Qed.

(** [float] ignores the white space around its text: stripping first
    changes nothing. *)
Lemma float_of_str_strip (s : string) :
  Py.float_of_str (Py.strip s) = Py.float_of_str s.
Proof. unfold Py.float_of_str. now rewrite strip_idempotent. Qed.

Example float_literals :
  Py.float_of_str "0.1" = Some Py.f0_1 /\
  Py.float_of_str "0.5" = Some Py.f0_5 /\
  Py.float_of_str " 2.5e0 " = Py.float_of_str "2.5" /\
  Py.float_of_str "abc" = None.
Proof. vm_compute; repeat split. Qed.

Example strip_examples :
  Py.strip "  Vintage  jacket " = "Vintage  jacket" /\
  Py.strip "   " = EmptyString /\
  Py.strip "0.02" = "0.02".
Proof. vm_compute; repeat split. Qed.

(** The order of the floats against a positive finite bound. *)
Section Floor.

Variables (m0 : positive) (e0 : Z).

Lemma lt_bound_not_gt (w : spec_float) :
  SFltb w (S754_finite false m0 e0) = true ->
  SFltb (S754_finite false m0 e0) w = false.
Proof.
  unfold SFltb.
  destruct w as [s|[]| |[] m e]; cbn [SFcompare]; try congruence.
  rewrite (Z.compare_antisym e e0).
  destruct (e ?= e0)%Z; cbn [CompOpp]; try congruence.
  change (Pos.compare_cont Eq m m0) with (m ?= m0)%positive.
  change (Pos.compare_cont Eq m0 m) with (m0 ?= m)%positive.
  rewrite (Pos.compare_antisym m m0).
  destruct (m ?= m0)%positive; cbn [CompOpp]; congruence.
Qed.

Lemma le_bound_cases (w : spec_float) :
  SFleb (S754_finite false m0 e0) w = true ->
  SFltb (S754_finite false m0 e0) w = true \/ w = S754_finite false m0 e0.
Proof.
  unfold SFleb, SFltb.
  destruct w as [s|[]| |[] m e]; cbn [SFcompare]; try congruence; auto.
  destruct (e0 ?= e)%Z eqn:He; try congruence; auto.
  apply Z.compare_eq in He; subst e.
  destruct (Pos.compare_cont Eq m0 m) eqn:Hm; try congruence; auto.
  apply Pos.compare_eq in Hm; subst m; auto.
Qed.

Lemma lt_bound_le (w : spec_float) :
  SFltb (S754_finite false m0 e0) w = true ->
  SFleb (S754_finite false m0 e0) w = true.
Proof.
  unfold SFleb, SFltb.
  destruct (SFcompare (S754_finite false m0 e0) w) as [[]|]; congruence.
Qed.

Lemma bound_le_refl : SFleb (S754_finite false m0 e0) (S754_finite false m0 e0) = true.
Proof.
  unfold SFleb; cbn [SFcompare].
  rewrite Z.compare_refl, Pos.compare_cont_refl; reflexivity.
Qed.

End Floor.

Lemma lt_floor_not_gt (w : spec_float) :
  Py.float_lt w Py.f0_1 = true -> Py.float_lt Py.f0_1 w = false.
Proof. apply lt_bound_not_gt. Qed.

Lemma max_floor_ge (w : spec_float) :
  Py.float_le Py.f0_1 (Py.max Py.f0_1 w) = true.
Proof.
  unfold Py.max.
  destruct (Py.float_lt Py.f0_1 w) eqn:Hlt.
  - apply lt_bound_le, Hlt.
  - apply bound_le_refl.
Qed.

Lemma max_floor_of_ge (w : spec_float) :
  Py.float_le Py.f0_1 w = true -> Py.max Py.f0_1 w = w.
Proof.
  intros H; unfold Py.max, Py.float_lt.
  destruct (le_bound_cases _ _ w H) as [Hlt | ->].
  - unfold Py.f0_1; rewrite Hlt; reflexivity.
  - destruct (SFltb _ _); reflexivity.
Qed.

Lemma max_floor_of_lt (w : spec_float) :
  Py.float_lt w Py.f0_1 = true -> Py.max Py.f0_1 w = Py.f0_1.
Proof.
  intros H; unfold Py.max; rewrite (lt_floor_not_gt w H); reflexivity.
Qed.

Lemma default_ge_floor : Py.float_le Py.f0_1 Py.f0_5 = true.
Proof. vm_compute; reflexivity. Qed.

End PyFacts.

(** ** Properties of [ai_module.py] *)

Module AiModuleFacts.
Import Ext ai_module Trace.

Section Facts.

Variable E : services.
Variable float : string -> option spec_float.

Lemma ChatCompletion_create_run (req : chat_request) (w : world) :
  ChatCompletion_create E req w =
  (match openai_chat E w req with
   | ChatRaises e => Raised e
   | ChatResponse choices => Returned choices
   end, after_chat E w req).
Proof.
  unfold ChatCompletion_create, bind, call, after_chat.
  destruct (openai_chat E w req); reflexivity.
Qed.

(** Unfold a generator down to the answer of the service. *)
Ltac run_generator :=
  unfold generate_ebay_title, generate_ebay_description, categorize_product,
    estimate_postage_weight, try_except, bind;
  rewrite ChatCompletion_create_run.

(** *** Each field generator returns, and records exactly its request *)

Lemma generate_ebay_title_total a d w :
  exists t, generate_ebay_title E a d w
            = (Returned t, after_chat E w (title_request a d)).
Proof.
  run_generator.
  destruct (openai_chat E w (title_request a d)) as [e|[|[c|] rest]];
    simpl; eauto.
Qed.

Lemma generate_ebay_description_total a d w :
  exists t, generate_ebay_description E a d w
            = (Returned t, after_chat E w (description_request a d)).
Proof.
  run_generator.
  destruct (openai_chat E w (description_request a d)) as [e|[|[c|] rest]];
    simpl; eauto.
Qed.

Lemma categorize_product_total a d w :
  exists t, categorize_product E a d w
            = (Returned t, after_chat E w (category_request a d)).
Proof.
  run_generator.
  destruct (openai_chat E w (category_request a d)) as [e|[|[c|] rest]];
    simpl; eauto.
Qed.

Lemma estimate_postage_weight_total a d w :
  exists x, estimate_postage_weight E float a d w
            = (Returned x, after_chat E w (weight_request a d)).
Proof.
  run_generator.
  destruct (openai_chat E w (weight_request a d)) as [e|[|[c|] rest]];
    simpl; eauto.
  unfold to_float; destruct (float (Py.strip c)); simpl; eauto.
Qed.

(** *** What a generator stores when the service call fails *)

Lemma generate_ebay_title_failed a d w e :
  openai_chat E w (title_request a d) = ChatRaises e ->
  fst (generate_ebay_title E a d w)
  = Returned ("Error generating title: " +:+ str e).
Proof. intros H; run_generator; rewrite H; reflexivity. Qed.

Lemma generate_ebay_description_failed a d w e :
  openai_chat E w (description_request a d) = ChatRaises e ->
  fst (generate_ebay_description E a d w)
  = Returned ("<p>Error generating description: " +:+ str e +:+ "</p>").
Proof. intros H; run_generator; rewrite H; reflexivity. Qed.

Lemma categorize_product_failed a d w e :
  openai_chat E w (category_request a d) = ChatRaises e ->
  fst (categorize_product E a d w)
  = Returned ("Error categorizing product: " +:+ str e).
Proof. intros H; run_generator; rewrite H; reflexivity. Qed.

Lemma estimate_postage_weight_failed a d w e :
  openai_chat E w (weight_request a d) = ChatRaises e ->
  fst (estimate_postage_weight E float a d w) = Returned Py.f0_5.
Proof. intros H; run_generator; rewrite H; reflexivity. Qed.

Lemma generator_calls_after_title a d w :
  generator_calls (after_chat E w (title_request a d))
  = S (generator_calls w).
Proof. reflexivity. Qed.

Lemma generator_calls_after_description a d w :
  generator_calls (after_chat E w (description_request a d))
  = S (generator_calls w).
Proof. reflexivity. Qed.

Lemma generator_calls_after_category a d w :
  generator_calls (after_chat E w (category_request a d))
  = S (generator_calls w).
Proof. reflexivity. Qed.

Lemma generator_calls_after_weight a d w :
  generator_calls (after_chat E w (weight_request a d))
  = S (generator_calls w).
Proof. reflexivity. Qed.

Lemma generator_calls_after_analysis parts d w :
  generator_calls (after_chat E w (analysis_request parts d))
  = generator_calls w.
Proof. reflexivity. Qed.

(** *** Reading the images *)

(** [encode_images] leaves the world as it is, and on success appends one
    part per path, in order, each from the bytes read at that path. *)
Lemma encode_images_returned paths : forall acc w parts w',
  encode_images E paths acc w = (Returned parts, w') ->
  w' = w /\
  exists files,
    Forall2 (fun p b => read_file E w p = inr b) paths files /\
    parts = acc ++ map (fun b => image_content (Py.b64encode b)) files.
Proof.
  induction paths as [|p paths IH]; intros acc w parts w' H.
  - inversion H; subst. split; [reflexivity|].
    exists []; split; [constructor | now rewrite app_nil_r].
  - cbn [encode_images] in H. unfold bind, encode_image in H.
    destruct (read_file E w p) as [e|b] eqn:Hp; [discriminate|].
    apply IH in H as [-> (files & Hall & ->)].
    split; [reflexivity|].
    exists (b :: files); split; [constructor; assumption|].
    now rewrite <- app_assoc.
Qed.

Lemma encode_images_raised paths : forall acc w x w',
  encode_images E paths acc w = (Raised x, w') ->
  w' = w /\ exists p, In p paths /\ read_file E w p = inl x.
Proof.
  induction paths as [|p paths IH]; intros acc w x w' H.
  - discriminate.
  - cbn [encode_images] in H. unfold bind, encode_image in H.
    destruct (read_file E w p) as [e|b] eqn:Hp.
    + inversion H; subst. split; [reflexivity|].
      exists p; split; [now left | assumption].
    + apply IH in H as [-> (q & Hq & Hr)].
      split; [reflexivity|]. exists q; split; [now right | assumption].
Qed.

Lemma request_images_analysis files d :
  request_images
    (analysis_request
       (map (fun b => image_content (Py.b64encode b)) files) d)
  = map (fun b => "data:image/jpeg;base64," +:+ Py.b64encode b) files.
Proof.
  unfold request_images, analysis_request; cbn.
  rewrite app_nil_r.
  induction files as [|b files IH]; cbn; [reflexivity|].
  now rewrite IH.
Qed.

(** The run of [analyze_product_images] once the images are encoded. *)
Lemma analyze_product_images_run paths d w parts :
  encode_images E (firstn 6 paths) [] w = (Returned parts, w) ->
  analyze_product_images E paths d w =
  (Returned
     match openai_chat E w (analysis_request parts d) with
     | ChatRaises e => AnalysisFailure (str e)
     | ChatResponse [] => AnalysisFailure "list index out of range"
     | ChatResponse (c :: _) => AnalysisSuccess c
     end,
   after_chat E w (analysis_request parts d)).
Proof.
  intros H. unfold analyze_product_images, bind at 1. rewrite H.
  unfold try_except, bind. rewrite ChatCompletion_create_run.
  destruct (openai_chat E w (analysis_request parts d)) as [e|[|c rest]];
    reflexivity.
Qed.

Lemma encode_images_ok paths : forall acc w files,
  Forall2 (fun p b => read_file E w p = inr b) paths files ->
  encode_images E paths acc w
  = (Returned (acc ++ map (fun b => image_content (Py.b64encode b)) files),
     w).
Proof.
  induction paths as [|p paths IH]; intros acc w files H;
    inversion H as [|? b ? files' Hp Hrest]; subst.
  - cbn. now rewrite app_nil_r.
  - cbn [encode_images]. unfold bind, encode_image. rewrite Hp.
    rewrite (IH _ _ _ Hrest). cbn [map]. now rewrite <- app_assoc.
Qed.

(** Either the images are read and the one request is sent, or reading an
    image raises before anything is sent. *)
Lemma analyze_product_images_cases paths d w :
  (exists files,
      Forall2 (fun p b => read_file E w p = inr b) (firstn 6 paths) files /\
      let parts := map (fun b => image_content (Py.b64encode b)) files in
      analyze_product_images E paths d w =
      (Returned
         match openai_chat E w (analysis_request parts d) with
         | ChatRaises e => AnalysisFailure (str e)
         | ChatResponse [] => AnalysisFailure "list index out of range"
         | ChatResponse (c :: _) => AnalysisSuccess c
         end,
       after_chat E w (analysis_request parts d)))
  \/
  (exists x p,
      In p (firstn 6 paths) /\ read_file E w p = inl x /\
      analyze_product_images E paths d w = (Raised x, w)).
Proof.
  destruct (encode_images E (firstn 6 paths) [] w) as [[parts|x] w1] eqn:He.
  - left. destruct (encode_images_returned _ _ _ _ _ He)
      as [-> (files & Hall & ->)].
    exists files; split; [assumption|]. cbn zeta.
    now apply analyze_product_images_run.
  - right. destruct (encode_images_raised _ _ _ _ _ He)
      as [-> (p & Hin & Hp)].
    exists x, p; repeat split; try assumption.
    unfold analyze_product_images, bind. now rewrite He.
Qed.

(** C1: when the analysis step returns a failure, the orchestrator raises
    the exception [Failed to analyze images: <error>]; the world it leaves
    is the one the analysis left, in which the analysis request is the only
    new event: no request of a field generator (title, description,
    category, weight) has been made. *)
Theorem generate_complete_listing_aborts paths d w err w' :
  analyze_product_images E paths d w = (Returned (AnalysisFailure err), w') ->
  generate_complete_listing E float paths d w
  = (Raised (mkExn Exception ("Failed to analyze images: " +:+ err)), w')
  /\ generator_calls w' = generator_calls w
  /\ exists parts, w' = after_chat E w (analysis_request parts d).
Proof.
  intros H. split.
  - unfold generate_complete_listing, bind. now rewrite H.
  - destruct (analyze_product_images_cases paths d w)
      as [(files & _ & Hrun) | (x & p & _ & _ & Hrun)];
      rewrite Hrun in H; [|discriminate].
    inversion H as [[Hr Hw]].
    split; [apply generator_calls_after_analysis | eauto].
Qed.

(** C4: whenever the analysis step sends its request, the images of that
    request are the data URLs of the first six paths of the list, in
    order: exactly six for a longer list, all of them otherwise. *)
Theorem analyze_product_images_first_six paths d w r w' :
  analyze_product_images E paths d w = (Returned r, w') ->
  exists req files,
    w' = after_chat E w req /\
    Forall2 (fun p b => read_file E w p = inr b) (firstn 6 paths) files /\
    request_images req
    = map (fun b => "data:image/jpeg;base64," +:+ Py.b64encode b) files /\
    (6 < length paths -> length (request_images req) = 6) /\
    (length paths <= 6 ->
     length (request_images req) = length paths /\ firstn 6 paths = paths).
Proof.
  intros H.
  destruct (analyze_product_images_cases paths d w)
    as [(files & Hall & Hrun) | (x & p & _ & _ & Hrun)];
    rewrite Hrun in H; [|discriminate].
  inversion H as [[Hr Hw]].
  eexists _, files. split; [reflexivity|]. split; [assumption|].
  rewrite request_images_analysis. split; [reflexivity|].
  rewrite length_map, <- (Forall2_length _ _ _ Hall), length_firstn.
  repeat split; try lia.
  apply firstn_all2; assumption.
Qed.

(** C6: whenever the service call of [analyze_product_images] raises an
    error [e], the function does not raise: it returns the dictionary with
    [success = False] that carries the text of [e]. *)
Theorem analyze_product_images_captures_error paths d w o req e :
  analyze_product_images E paths d w = (o, EvChat req (ChatRaises e) :: w) ->
  o = Returned (AnalysisFailure (str e)) /\
  success (AnalysisFailure (str e)) = false.
Proof.
  intros H. split; [|reflexivity].
  destruct (analyze_product_images_cases paths d w)
    as [(files & _ & Hrun) | (x & p & _ & _ & Hrun)];
    rewrite Hrun in H.
  - unfold after_chat in H. inversion H as [[Ho Hreq Hres]].
    rewrite Hres in *. reflexivity.
  - inversion H as [[Ho Hw]].
    apply (f_equal (@length event)) in Hw. cbn in Hw. lia.
Qed.

(** C5: when the analysis step succeeds, the orchestrator returns a
    listing whatever the four field generators meet: each of them is
    called once, in order (four generator requests are recorded), and a
    generator whose service call fails leaves its error text in the title,
    description or category, or the default weight 0.5. *)
Theorem generate_complete_listing_degrades paths d w a w1 :
  analyze_product_images E paths d w = (Returned (AnalysisSuccess a), w1) ->
  let w2 := after_chat E w1 (title_request a d) in
  let w3 := after_chat E w2 (description_request a d) in
  let w4 := after_chat E w3 (category_request a d) in
  let w5 := after_chat E w4 (weight_request a d) in
  exists listing,
    generate_complete_listing E float paths d w = (Returned listing, w5) /\
    generator_calls w5 = 4 + generator_calls w1 /\
    (forall e, openai_chat E w1 (title_request a d) = ChatRaises e ->
       title listing = "Error generating title: " +:+ str e) /\
    (forall e, openai_chat E w2 (description_request a d) = ChatRaises e ->
       description listing
       = "<p>Error generating description: " +:+ str e +:+ "</p>") /\
    (forall e, openai_chat E w3 (category_request a d) = ChatRaises e ->
       category listing = "Error categorizing product: " +:+ str e) /\
    (forall e, openai_chat E w4 (weight_request a d) = ChatRaises e ->
       postage_weight listing = Py.f0_5).
Proof.
  intros H w2 w3 w4 w5.
  destruct (generate_ebay_title_total a d w1) as [t Ht].
  destruct (generate_ebay_description_total a d w2) as [ds Hd].
  destruct (categorize_product_total a d w3) as [c Hc].
  destruct (estimate_postage_weight_total a d w4) as [x Hx].
  eexists. split.
  - unfold generate_complete_listing, bind at 1. rewrite H.
    unfold bind at 1. rewrite Ht.
    unfold bind at 1. fold w2. rewrite Hd.
    unfold bind at 1. fold w3. rewrite Hc.
    unfold bind. fold w4. rewrite Hx. reflexivity.
  - split; [reflexivity|].
    cbn [title description category postage_weight].
    repeat split; intros e He.
    + apply generate_ebay_title_failed in He. rewrite Ht in He.
      now inversion He.
    + apply generate_ebay_description_failed in He. rewrite Hd in He.
      now inversion He.
    + apply categorize_product_failed in He. rewrite Hc in He.
      now inversion He.
    + apply estimate_postage_weight_failed in He. rewrite Hx in He.
      now inversion He.
Qed.

(** C2: the weight generator always returns a weight of at least 0.1.
    When the service answers with the text [raw], the text is stripped and
    given to [float]: a number of at least 0.1 is stored as it is, a
    number below 0.1 is stored as 0.1, and a text that [float] refuses is
    stored as 0.5. *)
Theorem estimate_postage_weight_clamped a d w :
  exists weight,
    estimate_postage_weight E float a d w
    = (Returned weight, after_chat E w (weight_request a d)) /\
    Py.float_le Py.f0_1 weight = true /\
    forall raw rest,
      openai_chat E w (weight_request a d) = ChatResponse (Some raw :: rest) ->
      match float (Py.strip raw) with
      | Some x =>
          (Py.float_le Py.f0_1 x = true -> weight = x) /\
          (Py.float_lt x Py.f0_1 = true -> weight = Py.f0_1)
      | None => weight = Py.f0_5
      end.
Proof.
  run_generator.
  destruct (openai_chat E w (weight_request a d)) as [e|[|[raw|] rest]];
    cbn -[Py.f0_1 Py.f0_5 Py.float_le Py.float_lt Py.max].
  1,2,4: eexists; split; [reflexivity|];
       split; [apply PyFacts.default_ge_floor | intros; discriminate].
  unfold to_float.
  destruct (float (Py.strip raw)) as [x|] eqn:Hx;
    cbn -[Py.f0_1 Py.f0_5 Py.float_le Py.float_lt Py.max];
    eexists; (split; [reflexivity|]); split.
  - apply PyFacts.max_floor_ge.
  - intros raw' rest' Heq; inversion Heq; subst. rewrite Hx. split.
    + apply PyFacts.max_floor_of_ge.
    + apply PyFacts.max_floor_of_lt.
  - apply PyFacts.default_ge_floor.
  - intros raw' rest' Heq; inversion Heq; subst. now rewrite Hx.
Qed.

(** C3 (amended): the title generator strips the white space around the
    text the service answers with; the stored title is the first 80
    characters of the stripped text when that is longer than 80 characters,
    and the stripped text itself otherwise. *)
Theorem generate_ebay_title_truncates a d w content rest :
  openai_chat E w (title_request a d) = ChatResponse (Some content :: rest) ->
  let title := Py.strip content in
  exists stored,
    generate_ebay_title E a d w
    = (Returned stored, after_chat E w (title_request a d)) /\
    String.length stored <= 80 /\
    (80 < String.length title ->
     stored = Py.prefix 80 title /\ String.length stored = 80) /\
    (String.length title <= 80 -> stored = title).
Proof.
  intros H title. run_generator. rewrite H. cbn -[Nat.ltb Py.prefix].
  fold title. eexists; split; [reflexivity|].
  destruct (Nat.ltb_spec 80 (String.length title)) as [Hlt|Hle].
  - rewrite PyFacts.length_prefix. repeat split; intros; lia.
  - repeat split; intros; try lia; reflexivity.
Qed.

End Facts.

(** *** Concrete runs *)

Lemma generate_complete_listing_aborts_witness :
  let E := Samples.failing "quota exceeded" in
  let w' := snd (analyze_product_images E ["a.jpg"; "b.jpg"] "jacket" []) in
  generate_complete_listing E Py.float_of_str ["a.jpg"; "b.jpg"] "jacket" []
  = (Raised (mkExn Exception "Failed to analyze images: quota exceeded"), w')
  /\ generator_calls w' = generator_calls []
  /\ exists parts, w' = after_chat E [] (analysis_request parts "jacket").
Proof.
  intros E w'.
  apply (generate_complete_listing_aborts E Py.float_of_str
           ["a.jpg"; "b.jpg"] "jacket" [] "quota exceeded" w').
  reflexivity.
Defined.

Lemma analyze_product_images_first_six_witness :
  let E := Samples.answering "A brown leather jacket" in
  exists req files,
    snd (analyze_product_images E Samples.eight_paths "jacket" [])
    = after_chat E [] req /\
    Forall2 (fun p b => read_file E [] p = inr b) (firstn 6 Samples.eight_paths)
      files /\
    request_images req
    = map (fun b => "data:image/jpeg;base64," +:+ Py.b64encode b) files /\
    (6 < length Samples.eight_paths -> length (request_images req) = 6) /\
    (length Samples.eight_paths <= 6 ->
     length (request_images req) = length Samples.eight_paths
     /\ firstn 6 Samples.eight_paths = Samples.eight_paths).
Proof.
  intros E.
  apply (analyze_product_images_first_six E Samples.eight_paths "jacket" []
           (AnalysisSuccess (Some "A brown leather jacket"))).
  reflexivity.
Defined.

(** Eight paths: the request carries the first six files, in order. *)
Example eight_images_first_six_sent :
  match snd (analyze_product_images (Samples.answering "ok") Samples.eight_paths
               "jacket" []) with
  | [EvChat req _] =>
      request_images req
      = map (fun p => "data:image/jpeg;base64," +:+ Py.b64encode p)
          ["1.jpg"; "2.jpg"; "3.jpg"; "4.jpg"; "5.jpg"; "6.jpg"]
  | _ => False
  end.
Proof. reflexivity. Qed.

Lemma analyze_product_images_captures_error_witness :
  let E := Samples.failing "connection reset" in
  fst (analyze_product_images E ["a.jpg"] "jacket" [])
  = Returned (AnalysisFailure "connection reset") /\
  success (AnalysisFailure "connection reset") = false.
Proof.
  intros E.
  apply (analyze_product_images_captures_error E ["a.jpg"] "jacket" []
           (fst (analyze_product_images E ["a.jpg"] "jacket" []))
           (analysis_request [image_content (Py.b64encode "a.jpg")] "jacket")
           (mkExn Exception "connection reset")).
  reflexivity.
Defined.

Lemma generate_complete_listing_degrades_witness :
  let E := Samples.vision_only in
  exists listing w5,
    generate_complete_listing E Py.float_of_str ["a.jpg"] "jacket" []
    = (Returned listing, w5) /\
    title listing = "Error generating title: Rate limit reached" /\
    description listing
    = "<p>Error generating description: Rate limit reached</p>" /\
    category listing = "Error categorizing product: Rate limit reached" /\
    postage_weight listing = Py.f0_5.
Proof.
  intros E.
  destruct (generate_complete_listing_degrades E Py.float_of_str
              ["a.jpg"] "jacket" [] (Some "A brown leather jacket")
              (snd (analyze_product_images E ["a.jpg"] "jacket" []))
              eq_refl)
    as (listing & Hrun & _ & Ht & Hd & Hc & Hw).
  exists listing; eexists; split; [exact Hrun|].
  repeat split.
  - exact (Ht _ eq_refl).
  - exact (Hd _ eq_refl).
  - exact (Hc _ eq_refl).
  - exact (Hw _ eq_refl).
Defined.

(** The examples of the weight generator: [abc] gives 0.5, [0.02] gives
    0.1, [2.5] is kept, and a service failure gives 0.5. *)
Example weight_unparsable :
  fst (estimate_postage_weight (Samples.answering "abc") Py.float_of_str
         None "jacket" [])
  = Returned Py.f0_5.
Proof. reflexivity. Qed.

Example weight_below_minimum :
  fst (estimate_postage_weight (Samples.answering "0.02") Py.float_of_str
         None "jacket" [])
  = Returned Py.f0_1.
Proof. vm_compute; reflexivity. Qed.

Example weight_kept :
  fst (estimate_postage_weight (Samples.answering " 2.5 ") Py.float_of_str
         None "jacket" [])
  = Returned (S754_finite false 5629499534213120 (-51)).
Proof. vm_compute; reflexivity. Qed.

Example weight_service_failure :
  fst (estimate_postage_weight (Samples.failing "timeout") Py.float_of_str
         None "jacket" [])
  = Returned Py.f0_5.
Proof. reflexivity. Qed.

Lemma generate_ebay_title_truncates_witness :
  let E := Samples.answering "  Vintage leather jacket  " in
  exists stored,
    generate_ebay_title E None "jacket" []
    = (Returned stored, after_chat E [] (title_request None "jacket")) /\
    String.length stored <= 80 /\
    (80 < String.length (Py.strip "  Vintage leather jacket  ") ->
     stored = Py.prefix 80 (Py.strip "  Vintage leather jacket  ")
     /\ String.length stored = 80) /\
    (String.length (Py.strip "  Vintage leather jacket  ") <= 80 ->
     stored = Py.strip "  Vintage leather jacket  ").
Proof.
  intros E.
  apply (generate_ebay_title_truncates E None "jacket" []
           "  Vintage leather jacket  " []).
  reflexivity.
Defined.

(** C3 as stated fails: an answer of two characters, a space and [A], is
    within 80 characters and is not stored unchanged. *)
Lemma generate_ebay_title_changes_short_answer :
  exists stored,
    fst (generate_ebay_title (Samples.answering " A") None "jacket" [])
    = Returned stored /\
    String.length " A" <= 80 /\
    stored <> " A".
Proof.
  exists "A". repeat split.
  - cbn; lia.
  - discriminate.
Qed.

End AiModuleFacts.

(** ** Properties of [app.py] *)

Module AppFacts.
Import Ext app Trace.

Lemma uploads_app (evs1 evs2 : list event) :
  uploads (evs1 ++ evs2) = uploads evs1 ++ uploads evs2.
Proof.
  induction evs1 as [|ev evs1 IH]; [reflexivity|].
  destruct ev; cbn; now rewrite ?IH.
Qed.

Lemma accepted_app (ups1 ups2 : list (s3_put * option exn)) :
  accepted (ups1 ++ ups2) = accepted ups1 ++ accepted ups2.
Proof. apply omap_app. Qed.

Lemma length_accepted (ups : list (s3_put * option exn)) :
  length (accepted ups) <= length ups.
Proof.
  induction ups as [|[put [e|]] ups IH]; [cbn; lia | | ];
    change (accepted ((put, _) :: ups)) with (accepted ups) ||
    change (accepted ((put, None) :: ups)) with (put :: accepted ups);
    cbn [length]; lia.
Qed.

Lemma length_present {A} (items : list (option A)) : forall i,
  length (present i items) <= length items.
Proof.
  induction items as [|[a|] items IH]; intros i; cbn;
    [lia | specialize (IH (S i)); lia | specialize (IH (S i)); lia].
Qed.

Section Facts.

Variable E : services.

(** *** The uploader *)

Lemma upload_image_run self f filename w :
  upload_image E self f filename w =
  if String.eqb (storage_type self) "s3" then
    match s3_upload_fileobj E w (put_of self f filename) with
    | None =>
        (Returned (Some (public_url (put_of self f filename))),
         EvS3Upload (put_of self f filename) None :: w)
    | Some e =>
        (Returned None,
         EvStError ("Error uploading image: " +:+ str e)
         :: EvS3Upload (put_of self f filename) (Some e) :: w)
    end
  else (Returned None, w).
Proof.
  unfold upload_image, try_except.
  destruct (String.eqb (storage_type self) "s3"); [|reflexivity].
  unfold bind, upload_fileobj, bind, call. fold (put_of self f filename).
  destruct (s3_upload_fileobj E w (put_of self f filename)); reflexivity.
Qed.

Lemma stored_as_later self new w item up more :
  stored_as E self new w item up ->
  stored_as E self (more ++ new) w item up.
Proof.
  intros (later & earlier & Hnew & H). exists (more ++ later), earlier.
  cbv zeta in *. split; [|exact H].
  rewrite Hnew. now rewrite <- app_assoc.
Qed.

Lemma stored_as_earlier self new base w item up :
  stored_as E self new (base ++ w) item up ->
  stored_as E self (new ++ base) w item up.
Proof.
  intros (later & earlier & Hnew & H). exists later, (earlier ++ base).
  cbv zeta in *. rewrite <- app_assoc. split; [|exact H].
  rewrite Hnew. rewrite <- app_assoc. reflexivity.
Qed.

(** One turn of the loop: nothing for [None]; otherwise the clock is read,
    the item is uploaded from its first byte under its positional name,
    and the address is appended when the store accepted the upload. *)
Lemma upload_item_run self i item urls w :
  exists new,
    upload_item E self i item urls w
    = (Returned (urls ++ map public_url (accepted (uploads (rev new)))),
       new ++ w) /\
    if String.eqb (storage_type self) "s3"
    then Forall2 (stored_as E self new w) (present i [item])
           (uploads (rev new))
    else uploads (rev new) = [].
Proof.
  destruct item as [f|]; cbn [upload_item present].
  2:{ exists []. cbn. rewrite app_nil_r.
      split; [reflexivity|]. destruct (String.eqb _ _); constructor. }
  unfold bind, now, call. rewrite upload_image_run.
  destruct (String.eqb (storage_type self) "s3") eqn:Hs3.
  - set (put := put_of self (seek f 0)
                  (object_name (strftime (datetime_now E w)) i)).
    set (w1 := EvNow (datetime_now E w) :: w).
    assert (Hst : stored_as E self
                    [EvS3Upload put (s3_upload_fileobj E w1 put);
                     EvNow (datetime_now E w)] w
                    (i, f) (put, s3_upload_fileobj E w1 put))
      by (exists [], []; repeat split).
    destruct (s3_upload_fileobj E w1 put) as [e|] eqn:Hup.
    + exists [EvStError ("Error uploading image: " +:+ str e);
              EvS3Upload put (Some e); EvNow (datetime_now E w)].
      cbn. rewrite app_nil_r. split; [reflexivity|].
      constructor; [|constructor].
      exact (stored_as_later self _ w _ _ [EvStError _] Hst).
    + exists [EvS3Upload put None; EvNow (datetime_now E w)].
      cbn. split; [reflexivity|].
      constructor; [assumption | constructor].
  - exists [EvNow (datetime_now E w)]. cbn. rewrite app_nil_r.
    split; reflexivity.
Qed.

Lemma upload_loop_run self files : forall i urls w,
  exists new,
    upload_loop E self i files urls w
    = (Returned (urls ++ map public_url (accepted (uploads (rev new)))),
       new ++ w) /\
    if String.eqb (storage_type self) "s3"
    then Forall2 (stored_as E self new w) (present i files)
           (uploads (rev new))
    else uploads (rev new) = [].
Proof.
  induction files as [|item files IH]; intros i urls w.
  - exists []. cbn. rewrite app_nil_r. split; [reflexivity|].
    destruct (String.eqb _ _); constructor.
  - cbn [upload_loop]. unfold bind.
    destruct (upload_item_run self i item urls w) as (new1 & Hrun1 & H1).
    rewrite Hrun1.
    destruct (IH (S i)
                (urls ++ map public_url (accepted (uploads (rev new1))))
                (new1 ++ w)) as (new2 & Hrun2 & H2).
    rewrite Hrun2.
    exists (new2 ++ new1).
    rewrite rev_app_distr, uploads_app, accepted_app, map_app.
    rewrite <- !app_assoc. split; [reflexivity|].
    destruct (String.eqb (storage_type self) "s3").
    + replace (present i (item :: files))
        with (present i [item] ++ present (S i) files)
        by (destruct item; reflexivity).
      apply Forall2_app.
      * eapply Forall2_impl; [exact H1|].
        intros item' up. apply stored_as_later.
      * eapply Forall2_impl; [exact H2|].
        intros item' up. apply stored_as_earlier.
    + now rewrite H1, H2.
Qed.

(** C8: [upload_multiple_images] always returns.  Its result has at most
    as many addresses as the input has items; it is the list of the public
    addresses of the uploads the store accepted, in order.  With the [s3]
    storage type there is one upload per item that is not [None], in the
    order of the input, whether or not earlier uploads failed.  Each comes
    right after the reading of the clock made for its item in this call,
    and stores the bytes of the item under the name
    [product_images/<timestamp>_<position>.jpg], where the timestamp is
    that reading and the position is that of the item in the input. *)
Theorem upload_multiple_images_spec self files w :
  exists urls new,
    upload_multiple_images E self files w = (Returned urls, new ++ w) /\
    length urls <= length files /\
    urls = map public_url (accepted (uploads (rev new))) /\
    if String.eqb (storage_type self) "s3"
    then Forall2 (stored_as E self new w) (present 0 files)
           (uploads (rev new))
    else uploads (rev new) = [].
Proof.
  destruct (upload_loop_run self files 0 [] w) as (new & Hrun & Hups).
  exists (map public_url (accepted (uploads (rev new)))), new.
  split; [exact Hrun|]. split; [|split; [reflexivity | exact Hups]].
  rewrite length_map. clear Hrun.
  pose proof (length_accepted (uploads (rev new))) as Hacc.
  destruct (String.eqb (storage_type self) "s3").
  - apply Forall2_length in Hups.
    pose proof (length_present files 0). lia.
  - rewrite Hups. cbn. lia.
Qed.

(** *** The marketplace client *)


Lemma post_run req w :
  post E req w =
  (match requests_post E w req with
   | PostRaises e => Raised e
   | PostResponse r => Returned r
   end, EvHttpPost req (requests_post E w req) :: w).
Proof.
  unfold post, bind, call. destruct (requests_post E w req); reflexivity.
Qed.

(** The guard of [create_draft_listing]: a token that counts as false
    ends the call before anything is sent. *)
Lemma create_draft_listing_guard self listing image_urls w :
  truthy (access_token self) = false ->
  create_draft_listing E self listing image_urls w
  = (Returned (DraftFailure "No access token available"), w).
Proof.
  intros H. unfold create_draft_listing. rewrite H. reflexivity.
Qed.

Lemma fresh_manager_has_no_token environ :
  access_token (eBayAPIManager_init environ) = JNull.
Proof. reflexivity. Qed.

(** C7: a manager that holds no access token answers
    [create_draft_listing] with the failure [No access token available]
    and leaves the world as it was: no request is sent. *)
Theorem create_draft_listing_unauthenticated self listing image_urls w :
  access_token self = JNull ->
  create_draft_listing E self listing image_urls w
  = (Returned (DraftFailure "No access token available"), w).
Proof.
  intros H. apply create_draft_listing_guard. rewrite H. reflexivity.
Qed.

(** C9 (amended): a token response without an HTTP error status whose body
    decodes to a JSON object makes [get_access_token] return [True], with
    the stored token set to the [access_token] entry of the body, [None]
    when there is none; a manager left without a token still fails
    [create_draft_listing] with [No access token available]. *)
Theorem get_access_token_true_without_token self code w r kvs :
  requests_post E w (token_request self code) = PostResponse r ->
  is_http_error (status_code r) = false ->
  json r = inr (JObj kvs) ->
  exists self',
    get_access_token E self code w
    = (Returned (true, self'),
       EvHttpPost (token_request self code) (PostResponse r) :: w) /\
    access_token self' = default JNull (assoc "access_token" kvs) /\
    (assoc "access_token" kvs = None ->
     access_token self' = JNull /\
     forall listing image_urls w2,
       create_draft_listing E self' listing image_urls w2
       = (Returned (DraftFailure "No access token available"), w2)).
Proof.
  intros Hpost Hstatus Hjson.
  exists (set_refresh_token
            (set_access_token self (default JNull (assoc "access_token" kvs)))
            (default JNull (assoc "refresh_token" kvs))).
  split; [|split].
  - unfold get_access_token, try_except, bind at 1. rewrite post_run, Hpost.
    unfold bind, raise_for_status, response_json.
    rewrite Hstatus, Hjson. reflexivity.
  - reflexivity.
  - intros Hnone. cbn [access_token set_refresh_token set_access_token].
    rewrite Hnone. split; [reflexivity|].
    intros listing image_urls w2.
    apply create_draft_listing_guard.
    reflexivity.
Qed.


End Facts.

(** *** Concrete runs *)

(** Four items: the second upload is refused and the third item is
    [None]; the first and the fourth are stored, named by their positions
    0 and 3. *)
Example upload_skips_and_continues :
  fst (upload_multiple_images (Samples.answering "ok") Samples.sample_storage
         [Samples.sample_file "front"; Samples.sample_file "back"; None;
          Samples.sample_file "label"] [])
  = Returned
      ["https://shop-images.s3.amazonaws.com/product_images/20250309_140500_0.jpg";
       "https://shop-images.s3.amazonaws.com/product_images/20250309_140505_3.jpg"].
Proof. vm_compute; reflexivity. Qed.

Lemma create_draft_listing_unauthenticated_witness :
  create_draft_listing (Samples.marketplace Samples.unreachable)
    (eBayAPIManager_init ∅) Samples.sample_listing
    ["https://shop-images.s3.amazonaws.com/product_images/20250309_140500_0.jpg"]
    []
  = (Returned (DraftFailure "No access token available"), []).
Proof.
  apply (create_draft_listing_unauthenticated
           (Samples.marketplace Samples.unreachable)
           (eBayAPIManager_init ∅) Samples.sample_listing _ []).
  reflexivity.
Defined.

Lemma get_access_token_true_without_token_witness :
  let E := Samples.marketplace (PostResponse Samples.tokenless) in
  let self := eBayAPIManager_init ∅ in
  exists self',
    get_access_token E self "v^1.1#i^1" []
    = (Returned (true, self'),
       [EvHttpPost (token_request self "v^1.1#i^1")
          (PostResponse Samples.tokenless)]) /\
    access_token self' = JNull /\
    create_draft_listing E self' Samples.sample_listing [] []
    = (Returned (DraftFailure "No access token available"), []).
Proof.
  intros E self.
  destruct (get_access_token_true_without_token E self "v^1.1#i^1" []
              Samples.tokenless [] eq_refl eq_refl eq_refl)
    as (self' & Hrun & _ & Hnone).
  exists self'. split; [exact Hrun|].
  destruct (Hnone eq_refl) as [Htok Hdraft].
  split; [exact Htok | apply Hdraft].
Defined.

(** C9 as stated fails: a response with status 200 whose body is the JSON
    text [[]] holds no access token, and [get_access_token] does not return
    [True]: [token_data.get] raises [AttributeError], which the handler for
    [RequestException] lets through. *)
Lemma get_access_token_raises_on_array_body :
  let E := Samples.marketplace (PostResponse Samples.empty_array) in
  is_http_error (status_code Samples.empty_array) = false /\
  fst (get_access_token E (eBayAPIManager_init ∅) "v^1.1#i^1" [])
  = Raised (mkExn AttributeError "'list' object has no attribute 'get'").
Proof. split; reflexivity. Qed.

(** A body that does not decode makes the call report [False]. *)
Example get_access_token_false_on_undecodable_body :
  fst (get_access_token (Samples.marketplace (PostResponse Samples.not_json))
         (eBayAPIManager_init ∅) "v^1.1#i^1" [])
  = Returned (false, eBayAPIManager_init ∅).
Proof. reflexivity. Qed.

Example production_endpoints :
  let self := eBayAPIManager_init (<["EBAY_SANDBOX" := "False"]> ∅) in
  get_oauth_url self
  = "https://auth.ebay.com/oauth2/authorize?client_id=None&response_type=code&redirect_uri=None&scope=https://api.ebay.com/oauth/api_scope/sell.inventory"
  /\ url (token_request self "code")
     = "https://api.ebay.com/identity/v1/oauth2/token"
  /\ url (draft_request (set_access_token self (JStr "t"))
            Samples.sample_listing [])
     = "https://api.ebay.com/sell/inventory/v1/inventory_item/draft".
Proof. vm_compute; repeat split. Qed.

(** The sandbox flag is compared after lower-casing; unset, it counts as
    [true]. *)
Example sandbox_flag_values :
  base_url (eBayAPIManager_init ∅) = "https://api.sandbox.ebay.com" /\
  base_url (eBayAPIManager_init (<["EBAY_SANDBOX" := "TRUE"]> ∅))
  = "https://api.sandbox.ebay.com" /\
  base_url (eBayAPIManager_init (<["EBAY_SANDBOX" := "0"]> ∅))
  = "https://api.ebay.com".
Proof. vm_compute; repeat split. Qed.

End AppFacts.

(** ** Further properties of [ai_module.py] *)

Module AiModuleExtras.
Import Ext ai_module Trace.

Lemma length_append (a b : string) :
  String.length (a +:+ b) = String.length a + String.length b.
Proof.
  induction a as [|c a IH]; [reflexivity|].
  change (S (String.length (a +:+ b)) = S (String.length a + String.length b)).
  now rewrite IH.
Qed.

Lemma length_lstrip (s : string) : String.length (Py.lstrip s) <= String.length s.
Proof.
  induction s as [|c s IH]; cbn [Py.lstrip]; [lia|].
  destruct (Py.isspace c); cbn [String.length]; lia.
Qed.

Lemma length_rstrip (s : string) : String.length (Py.rstrip s) <= String.length s.
Proof.
  induction s as [|c s IH]; cbn [Py.rstrip]; [lia|].
  destruct (Py.rstrip s) as [|c2 r]; cbn [String.length] in *.
  - destruct (Py.isspace c); cbn [String.length]; lia.
  - lia.
Qed.

Lemma length_strip (s : string) : String.length (Py.strip s) <= String.length s.
Proof.
  unfold Py.strip. pose proof (length_rstrip (Py.lstrip s)).
  pose proof (length_lstrip s). lia.
Qed.

(** X1: the constructor keeps a key that is not empty: the argument when
    it is given and not empty, otherwise the value of [OPENAI_API_KEY]; it
    raises [ValueError] exactly when neither is there. *)
Theorem eBayListingGenerator_init_key (environ : gmap string string)
    (key : option string) :
  match eBayListingGenerator_init environ key with
  | inr g =>
      Py.str_truthy (Some (api_key g)) = true /\
      (Py.str_truthy key = true -> key = Some (api_key g)) /\
      (Py.str_truthy key = false ->
       environ !! "OPENAI_API_KEY" = Some (api_key g))
  | inl e =>
      e = mkExn ValueError "OpenAI API key is required" /\
      Py.str_truthy key = false /\
      Py.str_truthy (environ !! "OPENAI_API_KEY") = false
  end.
Proof.
  unfold eBayListingGenerator_init, Py.or_else.
  destruct key as [[|c k]|]; cbn [Py.str_truthy];
    try (repeat split; (reflexivity || discriminate)).
  all: destruct (environ !! "OPENAI_API_KEY") as [[|c k]|];
    cbn [Py.str_truthy api_key];
    repeat split; (reflexivity || discriminate).
Qed.

Section Facts.

Variable E : services.
Variable float : string -> option spec_float.

Ltac run_generator :=
  unfold generate_ebay_title, generate_ebay_description, categorize_product,
    estimate_postage_weight, try_except, bind;
  rewrite AiModuleFacts.ChatCompletion_create_run.

(** Only the first six paths matter: two lists that agree on their
    first six paths give the same run of the whole pipeline, whatever
    comes after. *)
Theorem generate_complete_listing_first_six paths1 paths2 d w :
  firstn 6 paths1 = firstn 6 paths2 ->
  generate_complete_listing E float paths1 d w
  = generate_complete_listing E float paths2 d w.
Proof.
  intros H. unfold generate_complete_listing, analyze_product_images.
  now rewrite H.
Qed.

Lemma encode_images_first_unreadable l1 : forall p l2 acc w x,
  Forall (fun q => exists b, read_file E w q = inr b) l1 ->
  read_file E w p = inl x ->
  encode_images E (l1 ++ p :: l2) acc w = (Raised x, w).
Proof.
  induction l1 as [|q l1 IH]; intros p l2 acc w x Hall Hp.
  - cbn [app encode_images]. unfold bind, encode_image. now rewrite Hp.
  - inversion Hall as [|? ? [b Hq] Hrest]; subst.
    cbn [app encode_images]. unfold bind, encode_image. rewrite Hq.
    now apply IH.
Qed.

(** X2: when one of the first six files cannot be read, the pipeline
    raises the error of the first such file as it is (it is not turned
    into the analysis failure) and nothing is sent. *)
Theorem generate_complete_listing_unreadable_image paths d w i p x :
  i < 6 ->
  paths !! i = Some p ->
  read_file E w p = inl x ->
  Forall (fun q => exists b, read_file E w q = inr b) (firstn i paths) ->
  analyze_product_images E paths d w = (Raised x, w) /\
  generate_complete_listing E float paths d w = (Raised x, w).
Proof.
  intros Hi Hp Hx Hall.
  assert (Hfirst : firstn 6 paths
                   = firstn i paths ++ p :: firstn (5 - i) (skipn (S i) paths)).
  { rewrite <- (take_drop_middle paths i p Hp) at 1.
    pose proof (lookup_lt_Some _ _ _ Hp) as Hlen.
    rewrite take_app_ge by (rewrite length_take; lia).
    rewrite length_take, Nat.min_l by lia.
    replace (6 - i) with (S (5 - i)) by lia. reflexivity. }
  assert (Hrun : analyze_product_images E paths d w = (Raised x, w)).
  { unfold analyze_product_images, bind. rewrite Hfirst.
    now rewrite (encode_images_first_unreadable _ _ _ _ _ _ Hall Hx). }
  split; [exact Hrun|].
  unfold generate_complete_listing, bind. now rewrite Hrun.
Qed.

(** X3: the error text of a failed title call is stored in full: the
    limit of 80 characters is not applied to it, so an error message of
    more than 56 characters gives a title longer than 80. *)
Theorem generate_ebay_title_error_not_truncated a d w e :
  openai_chat E w (title_request a d) = ChatRaises e ->
  56 < String.length (str e) ->
  exists t,
    fst (generate_ebay_title E a d w) = Returned t /\
    t = "Error generating title: " +:+ str e /\
    String.length t = 24 + String.length (str e) /\
    80 < String.length t.
Proof.
  intros He Hlen.
  exists ("Error generating title: " +:+ str e).
  split; [now apply AiModuleFacts.generate_ebay_title_failed|].
  split; [reflexivity|].
  rewrite length_append.
  change (String.length "Error generating title: ") with 24.
  split; lia.
Qed.

(** X4: a weight text that parses to a value that is not above 0.1, NaN
    included, is stored as 0.1; positive infinity is above 0.1 and is kept:
    the stored weight has no upper bound. *)
Theorem estimate_postage_weight_nan_and_infinity a d w raw rest :
  openai_chat E w (weight_request a d) = ChatResponse (Some raw :: rest) ->
  (forall x, float (Py.strip raw) = Some x ->
     Py.float_lt Py.f0_1 x = false ->
     fst (estimate_postage_weight E float a d w) = Returned Py.f0_1) /\
  (float (Py.strip raw) = Some S754_nan ->
   fst (estimate_postage_weight E float a d w) = Returned Py.f0_1) /\
  (float (Py.strip raw) = Some (S754_infinity false) ->
   fst (estimate_postage_weight E float a d w)
   = Returned (S754_infinity false)).
Proof.
  intros Hans.
  assert (Hrun : forall x, float (Py.strip raw) = Some x ->
            fst (estimate_postage_weight E float a d w)
            = Returned (Py.max Py.f0_1 x)).
  { intros x Hx. run_generator. rewrite Hans.
    cbn [first_content content_strip ret fst]. unfold to_float.
    rewrite Hx. reflexivity. }
  repeat split.
  - intros x Hx Hlt. rewrite (Hrun x Hx). unfold Py.max. now rewrite Hlt.
  - intros Hx. rewrite (Hrun _ Hx). reflexivity.
  - intros Hx. rewrite (Hrun _ Hx). reflexivity.
Qed.

(** X5: a description or a category that the service answers with is
    stored with the white space around it removed and otherwise as it is,
    whatever its length; stripping it again changes nothing. *)
Theorem description_and_category_stripped a d w content rest :
  (openai_chat E w (description_request a d)
   = ChatResponse (Some content :: rest) ->
   fst (generate_ebay_description E a d w) = Returned (Py.strip content)) /\
  (openai_chat E w (category_request a d)
   = ChatResponse (Some content :: rest) ->
   fst (categorize_product E a d w) = Returned (Py.strip content)) /\
  Py.strip (Py.strip content) = Py.strip content /\
  String.length (Py.strip content) <= String.length content.
Proof.
  repeat split.
  - intros H. run_generator. now rewrite H.
  - intros H. run_generator. now rewrite H.
  - apply PyFacts.strip_idempotent.
  - apply length_strip.
Qed.

(** X6: every run of the pipeline ends in one of three ways: a listing
    without a price, after five requests of which four are those of the
    field generators; the exception [Failed to analyze images: ...], after
    the analysis request alone; or the error of an image file that cannot
    be read, with nothing sent. *)
Theorem generate_complete_listing_outcomes paths d w :
  let run := generate_complete_listing E float paths d w in
  (exists listing,
      fst run = Returned listing /\
      suggested_price listing = None /\
      length (snd run) = 5 + length w /\
      generator_calls (snd run) = 4 + generator_calls w)
  \/
  (exists msg,
      fst run
      = Raised (mkExn Exception ("Failed to analyze images: " +:+ msg)) /\
      length (snd run) = 1 + length w /\
      generator_calls (snd run) = generator_calls w)
  \/
  (exists x p,
      In p (firstn 6 paths) /\ read_file E w p = inl x /\
      run = (Raised x, w)).
Proof.
  intros run. subst run.
  destruct (AiModuleFacts.analyze_product_images_cases E paths d w)
    as [(files & _ & Hrun) | (x & p & Hin & Hp & Hrun)].
  - cbn zeta in Hrun.
    set (parts := map (fun b => image_content (Py.b64encode b)) files) in *.
    set (w1 := after_chat E w (analysis_request parts d)) in *.
    assert (Hfail : forall msg,
              analyze_product_images E paths d w
              = (Returned (AnalysisFailure msg), w1) ->
              exists msg0,
                fst (generate_complete_listing E float paths d w)
                = Raised (mkExn Exception
                            ("Failed to analyze images: " +:+ msg0)) /\
                length (snd (generate_complete_listing E float paths d w))
                = 1 + length w /\
                generator_calls
                  (snd (generate_complete_listing E float paths d w))
                = generator_calls w).
    { intros msg H. exists msg.
      unfold generate_complete_listing, bind. rewrite H.
      repeat split. }
    destruct (openai_chat E w (analysis_request parts d)) as [e|[|c cs]].
    + right; left. now apply (Hfail _ Hrun).
    + right; left. now apply (Hfail _ Hrun).
    + left.
      destruct (AiModuleFacts.generate_ebay_title_total E c d w1) as [t Ht].
      set (w2 := after_chat E w1 (title_request c d)) in *.
      destruct (AiModuleFacts.generate_ebay_description_total E c d w2)
        as [ds Hd].
      set (w3 := after_chat E w2 (description_request c d)) in *.
      destruct (AiModuleFacts.categorize_product_total E c d w3) as [cat Hc].
      set (w4 := after_chat E w3 (category_request c d)) in *.
      destruct (AiModuleFacts.estimate_postage_weight_total E float c d w4)
        as [x Hx].
      eexists.
      unfold generate_complete_listing, bind. rewrite Hrun, Ht, Hd, Hc, Hx.
      repeat split.
  - right; right. exists x, p. repeat split; try assumption.
    unfold generate_complete_listing, bind. now rewrite Hrun.
Qed.

Lemma generate_ebay_title_bounded_or_error a d w t w' :
  generate_ebay_title E a d w = (Returned t, w') ->
  String.length t <= 80 \/
  exists msg, t = "Error generating title: " +:+ msg.
Proof.
  run_generator.
  destruct (openai_chat E w (title_request a d)) as [e|[|[c|] rest]];
    cbn -[Nat.ltb Py.prefix].
  1,2,4: intros H; injection H as <- _; eauto.
  pose proof (PyFacts.length_prefix 80 (Py.strip c)) as Hp.
  destruct (Nat.ltb_spec 80 (String.length (Py.strip c))) as [Hlt|Hle].
  - revert Hp. generalize (Py.prefix 80 (Py.strip c)). intros p Hp H.
    injection H as <- _. left. lia.
  - intros H. injection H as <- _. now left.
Qed.

Lemma estimate_postage_weight_at_least_floor a d w x w' :
  estimate_postage_weight E float a d w = (Returned x, w') ->
  Py.float_le Py.f0_1 x = true.
Proof.
  run_generator.
  destruct (openai_chat E w (weight_request a d)) as [e|[|[c|] rest]];
    cbn -[Py.f0_1 Py.f0_5 Py.float_le Py.max];
    try (intros H; inversion H; subst; apply PyFacts.default_ge_floor).
  unfold to_float. destruct (float (Py.strip c)) as [y|];
    cbn -[Py.f0_1 Py.f0_5 Py.float_le Py.max];
    intros H; inversion H; subst.
  - apply PyFacts.max_floor_ge.
  - apply PyFacts.default_ge_floor.
Qed.

(** X7: every listing the pipeline returns has a weight of at least 0.1,
    no price, and a title that is within 80 characters or is the error
    text [Error generating title: ...]. *)
Theorem generate_complete_listing_invariants paths d w listing w' :
  generate_complete_listing E float paths d w = (Returned listing, w') ->
  (String.length (title listing) <= 80 \/
   exists msg, title listing = "Error generating title: " +:+ msg) /\
  Py.float_le Py.f0_1 (postage_weight listing) = true /\
  suggested_price listing = None.
Proof.
  unfold generate_complete_listing, bind.
  destruct (analyze_product_images E paths d w) as [[[c|msg]|x] w1];
    try discriminate.
  destruct (generate_ebay_title E c d w1) as [[t|x] w2] eqn:Ht;
    try discriminate.
  destruct (generate_ebay_description E c d w2) as [[ds|x] w3];
    try discriminate.
  destruct (categorize_product E c d w3) as [[cat|x] w4]; try discriminate.
  destruct (estimate_postage_weight E float c d w4) as [[y|x] w5] eqn:Hw;
    try discriminate.
  intros H; inversion H; subst; cbn [title postage_weight suggested_price].
  split; [exact (generate_ebay_title_bounded_or_error _ _ _ _ _ Ht)|].
  split; [exact (estimate_postage_weight_at_least_floor _ _ _ _ _ Hw)|].
  reflexivity.
Qed.

(** An exception that leaves the pipeline is the analysis failure or the
    error of an image file that cannot be read. *)
Lemma generate_complete_listing_raised paths d w e w' :
  generate_complete_listing E float paths d w = (Raised e, w') ->
  (exists msg, e = mkExn Exception ("Failed to analyze images: " +:+ msg)) \/
  (exists q, In q (firstn 6 paths) /\ read_file E w q = inl e).
Proof.
  unfold generate_complete_listing, bind.
  destruct (AiModuleFacts.analyze_product_images_cases E paths d w)
    as [(files & _ & Hrun) | (x & q & Hin & Hq & Hrun)]; rewrite Hrun.
  - cbn zeta.
    set (w1 := after_chat E w _).
    destruct (match openai_chat E w _ with
              | ChatRaises e0 => AnalysisFailure (str e0)
              | ChatResponse [] => AnalysisFailure "list index out of range"
              | ChatResponse (c :: _) => AnalysisSuccess c
              end) as [c|msg].
    + destruct (AiModuleFacts.generate_ebay_title_total E c d w1) as [t ->].
      destruct (AiModuleFacts.generate_ebay_description_total E c d
                  (after_chat E w1 (title_request c d))) as [ds ->].
      destruct (AiModuleFacts.categorize_product_total E c d
                  (after_chat E (after_chat E w1 (title_request c d))
                     (description_request c d))) as [cat ->].
      destruct (AiModuleFacts.estimate_postage_weight_total E float c d
                  (after_chat E
                     (after_chat E (after_chat E w1 (title_request c d))
                        (description_request c d))
                     (category_request c d))) as [x ->].
      discriminate.
    + intros H. injection H as <- _. left. eauto.
  - intros H. injection H as <- _. right. eauto.
Qed.

End Facts.

(** *** Concrete runs *)

Lemma generate_complete_listing_first_six_witness :
  let E := Samples.answering "A brown leather jacket" in
  generate_complete_listing E Py.float_of_str Samples.eight_paths "jacket" []
  = generate_complete_listing E Py.float_of_str
      (firstn 6 Samples.eight_paths ++ ["missing.jpg"]) "jacket" [].
Proof.
  intros E.
  apply (generate_complete_listing_first_six E Py.float_of_str).
  reflexivity.
Defined.

Lemma generate_complete_listing_unreadable_image_witness :
  let E := Samples.answering "A brown leather jacket" in
  let x := mkExn OSError "No such file or directory: 'missing.jpg'" in
  analyze_product_images E ["a.jpg"; "missing.jpg"; "b.jpg"] "jacket" []
  = (Raised x, []) /\
  generate_complete_listing E Py.float_of_str
    ["a.jpg"; "missing.jpg"; "b.jpg"] "jacket" []
  = (Raised x, []).
Proof.
  intros E x.
  apply (generate_complete_listing_unreadable_image E Py.float_of_str
           ["a.jpg"; "missing.jpg"; "b.jpg"] "jacket" [] 1 "missing.jpg" x).
  - lia.
  - reflexivity.
  - reflexivity.
  - repeat constructor. now exists "a.jpg".
Defined.

Lemma generate_ebay_title_error_not_truncated_witness :
  let msg :=
    "Rate limit reached for gpt-4 in organization org-1 on tokens per min" in
  exists t,
    fst (generate_ebay_title (Samples.failing msg) None "jacket" [])
    = Returned t /\
    t = "Error generating title: " +:+ msg /\
    String.length t = 24 + String.length msg /\
    80 < String.length t.
Proof.
  intros msg.
  apply (generate_ebay_title_error_not_truncated (Samples.failing msg)
           None "jacket" [] (mkExn Exception msg)).
  - reflexivity.
  - cbn. lia.
Defined.

Lemma estimate_postage_weight_nan_and_infinity_witness :
  fst (estimate_postage_weight (Samples.answering "nan") Py.float_of_str
         None "jacket" [])
  = Returned Py.f0_1.
Proof.
  apply (estimate_postage_weight_nan_and_infinity (Samples.answering "nan")
           Py.float_of_str None "jacket" [] "nan" []); reflexivity.
Defined.

Lemma generate_complete_listing_invariants_witness :
  let E := Samples.vision_only in
  exists listing w',
    generate_complete_listing E Py.float_of_str ["a.jpg"] "jacket" []
    = (Returned listing, w') /\
    (String.length (title listing) <= 80 \/
     exists msg, title listing = "Error generating title: " +:+ msg) /\
    Py.float_le Py.f0_1 (postage_weight listing) = true /\
    suggested_price listing = None.
Proof.
  intros E.
  assert (Hrun : exists listing w',
             generate_complete_listing E Py.float_of_str ["a.jpg"] "jacket" []
             = (Returned listing, w')).
  { eexists _, _. vm_compute. reflexivity. }
  destruct Hrun as (listing & w' & Hrun).
  exists listing, w'. split; [exact Hrun|].
  exact (generate_complete_listing_invariants E Py.float_of_str
           ["a.jpg"] "jacket" [] listing w' Hrun).
Defined.

End AiModuleExtras.

(** ** Further properties of [app.py] *)

Module AppExtras.
Import Ext app Trace.

(** *** Configuration *)

Lemma missing_of_filter environ vars : forall missing,
  missing_of environ vars missing
  = missing
    ++ map missing_line (List.filter (unset environ) vars).
Proof.
  induction vars as [|[var description] vars IH]; intros missing.
  - cbn. now rewrite app_nil_r.
  - cbn [missing_of List.filter]. rewrite IH. unfold unset at 2. cbn [fst].
    destruct (negb (Py.str_truthy (getenv environ var))).
    + cbn [map]. now rewrite <- app_assoc.
    + reflexivity.
Qed.

Lemma filter_unset_nil environ vars :
  List.filter (unset environ) vars = [] <->
  Forall (fun var => Py.str_truthy (environ !! var) = true) (map fst vars).
Proof.
  induction vars as [|[var description] vars IH]; cbn [List.filter map fst].
  - split; [constructor | reflexivity].
  - unfold unset at 1, getenv. cbn [fst].
    destruct (Py.str_truthy (environ !! var)) eqn:Hv; cbn [negb].
    + rewrite IH. split; [now constructor | now inversion 1].
    + split; [discriminate | inversion 1; congruence].
Qed.

Lemma check_configuration_run (environ : gmap string string) :
  check_configuration environ
  = match List.filter (unset environ) required_vars with
    | [] => (true, [])
    | (_ :: _) as missing =>
        (false,
         [StError "Missing required environment variables:"]
         ++ map (fun vd => StWrite ("- " +:+ missing_line vd)) missing
         ++ [StInfo configuration_help])
    end.
Proof.
  unfold check_configuration. rewrite missing_of_filter. cbn [app].
  destruct (List.filter (unset environ) required_vars) as [|vd rest];
    [reflexivity|].
  cbn [map]. now rewrite map_map.
Qed.

Lemma check_configuration_true_iff (environ : gmap string string) :
  fst (check_configuration environ) = true <->
  Forall (fun var => Py.str_truthy (environ !! var) = true)
    (map fst required_vars).
Proof.
  rewrite check_configuration_run.
  rewrite <- (filter_unset_nil environ required_vars).
  destruct (List.filter (unset environ) required_vars); cbn;
    split; intros H; (reflexivity || discriminate H).
Qed.

(** X8: [check_configuration] returns [True], showing nothing, exactly
    when each of its seven variables is set to a non-empty value;
    otherwise it returns [False] and shows the heading, one line
    [- VAR (description)] for each missing variable in the order of the
    dictionary, and the help text.  [EBAY_SANDBOX] plays no part. *)
Theorem check_configuration_spec (environ : gmap string string) :
  let missing := List.filter (unset environ) required_vars in
  check_configuration environ
  = match missing with
    | [] => (true, [])
    | _ :: _ =>
        (false,
         [StError "Missing required environment variables:"]
         ++ map (fun vd => StWrite ("- " +:+ missing_line vd)) missing
         ++ [StInfo configuration_help])
    end /\
  (fst (check_configuration environ) = true <->
   Forall (fun var => Py.str_truthy (environ !! var) = true)
     (map fst required_vars)) /\
  (forall v,
     check_configuration (<["EBAY_SANDBOX" := v]> environ)
     = check_configuration environ).
Proof.
  intros missing. split; [|split].
  - rewrite check_configuration_run. fold missing.
    destruct missing; reflexivity.
  - apply check_configuration_true_iff.
  - intros v. rewrite !check_configuration_run.
    replace (List.filter (unset (<["EBAY_SANDBOX" := v]> environ))
               required_vars)
      with (List.filter (unset environ) required_vars); [reflexivity|].
    unfold required_vars, unset, getenv. cbn [List.filter fst].
    now rewrite !lookup_insert_ne by discriminate.
Qed.

(** X9: when [check_configuration] passes, the check at the top of
    [main] finds nothing missing, the constructor of the generator called
    without a key succeeds with the key of the environment, and the
    storage and marketplace managers get a bucket name, a client id, a
    client secret and a redirect URI that are not empty.  The storage
    manager is built exactly when [boto3.client] does not raise; the key
    id and the secret key it is given are not empty. *)
Theorem check_configuration_enables_constructors
    (boto3_client : client_args -> option exn)
    (environ : gmap string string) :
  fst (check_configuration environ) = true ->
  main_missing_vars environ = [] /\
  main_configuration_error environ = None /\
  (exists g, ai_module.eBayListingGenerator_init environ None = inr g /\
             environ !! "OPENAI_API_KEY" = Some (ai_module.api_key g)) /\
  Py.str_truthy (aws_access_key_id (s3_client_args environ)) = true /\
  Py.str_truthy (aws_secret_access_key (s3_client_args environ)) = true /\
  match CloudStorageManager_init boto3_client environ "s3" with
  | inr self =>
      boto3_client (s3_client_args environ) = None /\
      Py.str_truthy (bucket_name self) = true
  | inl e => boto3_client (s3_client_args environ) = Some e
  end /\
  Py.str_truthy (client_id (eBayAPIManager_init environ)) = true /\
  Py.str_truthy (client_secret (eBayAPIManager_init environ)) = true /\
  Py.str_truthy (redirect_uri (eBayAPIManager_init environ)) = true.
Proof.
  intros H.
  apply check_configuration_true_iff in H.
  cbn [map fst required_vars] in H.
  repeat match goal with
         | H : Forall _ (_ :: _) |- _ => inversion H; clear H; subst
         end.
  assert (Hmain : main_missing_vars environ = []).
  { unfold main_missing_vars, main_required_vars, getenv.
    rewrite !filter_cons, filter_nil.
    repeat match goal with
           | H : Py.str_truthy _ = true |- _ => rewrite H; clear H
           end.
    cbn [negb]. repeat case_decide; congruence. }
  split; [exact Hmain|].
  split; [unfold main_configuration_error; now rewrite Hmain|].
  split.
  - unfold ai_module.eBayListingGenerator_init, Py.or_else.
    cbn [Py.str_truthy].
    destruct (environ !! "OPENAI_API_KEY") as [[|c k]|];
      try discriminate. eexists; split; reflexivity.
  - split; [assumption|]. split; [assumption|]. split.
    + unfold CloudStorageManager_init. cbn [String.eqb Ascii.eqb Bool.eqb].
      destruct (boto3_client (s3_client_args environ));
        [reflexivity | split; [reflexivity | assumption]].
    + cbn. unfold getenv. repeat split; assumption.
Qed.

(** *** Session state *)

Lemma lookup_set_if_absent key value
    (session_state : gmap string session_value) (k : string) :
  set_if_absent key value session_state !! k
  = match session_state !! k with
    | Some v => Some v
    | None => if String.eqb k key then Some value else None
    end.
Proof.
  unfold set_if_absent.
  destruct (String.eqb_spec k key) as [->|Hne].
  - destruct (session_state !! key) as [v|] eqn:Hk.
    + now rewrite Hk.
    + now rewrite lookup_insert_eq.
  - destruct (session_state !! key) as [v|] eqn:Hk.
    + destruct (session_state !! k); reflexivity.
    + rewrite lookup_insert_ne by congruence.
      destruct (session_state !! k); reflexivity.
Qed.

Lemma lookup_init_session_state
    (session_state : gmap string session_value) (k : string) :
  init_session_state session_state !! k
  = match session_state !! k with
    | Some v => Some v
    | None => session_default k
    end.
Proof.
  unfold init_session_state, session_default.
  rewrite !lookup_set_if_absent.
  destruct (session_state !! k); [reflexivity|].
  destruct (String.eqb k "uploaded_images"); [reflexivity|].
  destruct (String.eqb k "generated_listing"); [reflexivity|].
  destruct (String.eqb k "image_urls"); reflexivity.
Qed.

Lemma lookup_foldr_delete (keys : list string)
    (m : gmap string session_value) (k : string) :
  foldr (fun key s => delete key s) m keys !! k
  = if decide (k ∈ keys) then None else m !! k.
Proof.
  induction keys as [|key keys IH]; cbn [foldr].
  - destruct (decide (k ∈ [])) as [H|H]; [now apply elem_of_nil in H|].
    reflexivity.
  - destruct (decide (key = k)) as [->|Hne].
    + rewrite lookup_delete_eq.
      destruct (decide (k ∈ k :: keys)) as [H|H]; [reflexivity|].
      exfalso; apply H; left.
    + rewrite lookup_delete_ne by assumption. rewrite IH.
      destruct (decide (k ∈ keys)) as [H|H];
        destruct (decide (k ∈ key :: keys)) as [H'|H']; try reflexivity.
      * exfalso; apply H'; now right.
      * exfalso. apply elem_of_cons in H' as [->|H']; contradiction.
Qed.

(** X10: [init_session_state] keeps every entry the session already has,
    gives the four keys [uploaded_images], [generated_listing],
    [image_urls] and [listing_created] their defaults where they are
    absent, and touches nothing else; running it again changes nothing.
    The reset of [Create Another Listing] empties the session, so that the
    next initialisation gives the four defaults alone. *)
Theorem init_session_state_spec (session_state : gmap string session_value) :
  (forall k v, session_state !! k = Some v ->
     init_session_state session_state !! k = Some v) /\
  (forall k, session_state !! k = None ->
     init_session_state session_state !! k = session_default k) /\
  init_session_state (init_session_state session_state)
  = init_session_state session_state /\
  reset_session_state session_state = ∅ /\
  init_session_state (reset_session_state session_state)
  = {[ "uploaded_images" := SList []; "generated_listing" := SNone;
       "image_urls" := SList []; "listing_created" := SBool false ]}.
Proof.
  assert (Hreset : reset_session_state session_state = ∅).
  { apply map_eq; intros k. unfold reset_session_state.
    rewrite lookup_foldr_delete, lookup_empty.
    case_decide as Hk; [reflexivity|].
    destruct (session_state !! k) as [v|] eqn:Hv; [|reflexivity].
    exfalso; apply Hk.
    apply list_elem_of_fmap. exists (k, v). split; [reflexivity|].
    now apply elem_of_map_to_list. }
  repeat split.
  - intros k v H. now rewrite lookup_init_session_state, H.
  - intros k H. now rewrite lookup_init_session_state, H.
  - apply map_eq; intros k. rewrite !lookup_init_session_state.
    destruct (session_state !! k); [reflexivity|].
    destruct (session_default k); reflexivity.
  - exact Hreset.
  - rewrite Hreset. apply map_eq; intros k.
    rewrite lookup_init_session_state, lookup_empty.
    unfold session_default.
    destruct (String.eqb_spec k "uploaded_images") as [->|H1];
      [reflexivity|].
    destruct (String.eqb_spec k "generated_listing") as [->|H2];
      [reflexivity|].
    destruct (String.eqb_spec k "image_urls") as [->|H3]; [reflexivity|].
    destruct (String.eqb_spec k "listing_created") as [->|H4];
      [reflexivity|].
    symmetry. rewrite !lookup_insert_ne by congruence.
    apply lookup_singleton_ne. congruence.
Qed.

(** X11: the manager uses the sandbox unless [EBAY_SANDBOX] is set to a
    value that, lower-cased, differs from [true]: an unset variable means
    the sandbox, and every other value, such as [1] or [yes], means
    production. *)
Theorem sandbox_unless_flag_differs (environ : gmap string string) :
  (is_sandbox (eBayAPIManager_init environ) = false <->
   exists v, environ !! "EBAY_SANDBOX" = Some v /\ Py.lower v <> "true") /\
  base_url (eBayAPIManager_init environ)
  = (if is_sandbox (eBayAPIManager_init environ)
     then "https://api.sandbox.ebay.com" else "https://api.ebay.com") /\
  (environ !! "EBAY_SANDBOX" = None ->
   base_url (eBayAPIManager_init environ) = "https://api.sandbox.ebay.com").
Proof.
  unfold eBayAPIManager_init, getenv_default. cbn [is_sandbox base_url].
  repeat split.
  - intros H. destruct (environ !! "EBAY_SANDBOX") as [v|]; cbn [default] in H.
    + exists v. split; [reflexivity|]. now apply String.eqb_neq.
    + discriminate H.
  - intros (v & Hv & Hne). rewrite Hv. cbn [default].
    now apply String.eqb_neq.
  - intros H. now rewrite H.
Qed.

(** *** Object names *)

Lemma contains_append c (a b : string) :
  Py.contains c (a +:+ b) = Py.contains c a || Py.contains c b.
Proof.
  induction a as [|x a IH]; [reflexivity|].
  change (Ascii.eqb x c || Py.contains c (a +:+ b)
          = (Ascii.eqb x c || Py.contains c a) || Py.contains c b).
  rewrite IH. now rewrite orb_assoc.
Qed.

(** A text is cut in one way only at the last occurrence of [c]. *)
Lemma cut_at_last c (a : string) : forall b x y,
  Py.contains c x = false -> Py.contains c y = false ->
  a +:+ String c x = b +:+ String c y -> x = y.
Proof.
  induction a as [|u a IH]; intros [|v b] x y Hx Hy H;
    cbn [String.append] in H; injection H as H.
  - assumption.
  - subst. rewrite contains_append in Hx. cbn [Py.contains] in Hx.
    rewrite Ascii.eqb_refl in Hx. cbn [orb] in Hx.
    now rewrite orb_true_r in Hx.
  - subst. rewrite contains_append in Hy. cbn [Py.contains] in Hy.
    rewrite Ascii.eqb_refl in Hy. cbn [orb] in Hy.
    now rewrite orb_true_r in Hy.
  - eapply IH; eassumption.
Qed.

(** A text is cut in one way only at the first occurrence of [c]. *)
Lemma cut_at_first c (a : string) : forall b x y,
  Py.contains c a = false -> Py.contains c b = false ->
  a +:+ String c x = b +:+ String c y -> a = b.
Proof.
  induction a as [|u a IH]; intros [|v b] x y Ha Hb H;
    cbn [String.append] in H; injection H as H.
  - reflexivity.
  - subst. cbn [Py.contains] in Hb. now rewrite Ascii.eqb_refl in Hb.
  - subst. cbn [Py.contains] in Ha. now rewrite Ascii.eqb_refl in Ha.
  - subst. cbn [Py.contains] in Ha, Hb.
    apply orb_false_elim in Ha as [_ Ha]. apply orb_false_elim in Hb as [_ Hb].
    f_equal. eapply IH; eassumption.
Qed.

Lemma digits_only (c : ascii) (d : Decimal.uint) :
  (Py.code c <? 48)%N || (57 <? Py.code c)%N = true ->
  Py.contains c (NilEmpty.string_of_uint d) = false.
Proof.
  intros Hc. induction d; cbn [NilEmpty.string_of_uint Py.contains];
    try reflexivity; rewrite IHd, orb_false_r;
    destruct c as [[] [] [] [] [] [] [] []]; try reflexivity;
    discriminate Hc.
Qed.

Lemma str_nat_inj (i j : nat) : Py.str_nat i = Py.str_nat j -> i = j.
Proof.
  unfold Py.str_nat. intros H.
  apply (f_equal NilEmpty.uint_of_string) in H.
  rewrite !NilEmpty.usu in H. injection H as H.
  apply (f_equal Nat.of_uint) in H.
  now rewrite !DecimalNat.Unsigned.of_to in H.
Qed.

(** The position is read off the name, whatever the timestamps. *)
Lemma object_name_inj (t1 t2 : string) (i j : nat) :
  object_name t1 i = object_name t2 j -> i = j.
Proof.
  unfold object_name. intros H.
  apply (inj (String.append "product_images/")) in H.
  apply cut_at_last in H.
  - apply cut_at_first in H.
    + now apply str_nat_inj.
    + now apply digits_only.
    + now apply digits_only.
  - rewrite contains_append. unfold Py.str_nat.
    now rewrite digits_only.
  - rewrite contains_append. unfold Py.str_nat.
    now rewrite digits_only.
Qed.

Lemma present_positions {A} (items : list (option A)) : forall i,
  Forall (fun x => i <= fst x) (present i items) /\
  NoDup (map fst (present i items)).
Proof.
  induction items as [|[a|] items IH]; intros i; cbn [present map fst].
  - split; constructor.
  - destruct (IH (S i)) as [Hge Hnd]. split.
    + constructor; [cbn; lia|].
      eapply Forall_impl; [exact Hge | cbn; intros; lia].
    + apply NoDup_cons. split; [|exact Hnd].
      intros Hin. apply list_elem_of_fmap in Hin as (x & Hx & Hin).
      rewrite Forall_forall in Hge. specialize (Hge x Hin). lia.
  - destruct (IH (S i)) as [Hge Hnd]. split; [|exact Hnd].
    eapply Forall_impl; [exact Hge | cbn; intros; lia].
Qed.

Lemma st_errors_app (evs1 evs2 : list event) :
  st_errors (evs1 ++ evs2) = st_errors evs1 + st_errors evs2.
Proof.
  induction evs1 as [|ev evs1 IH]; [reflexivity|].
  destruct ev; cbn; now rewrite ?IH.
Qed.

Lemma clock_reads_app (evs1 evs2 : list event) :
  clock_reads (evs1 ++ evs2) = clock_reads evs1 + clock_reads evs2.
Proof.
  induction evs1 as [|ev evs1 IH]; [reflexivity|].
  destruct ev; cbn; now rewrite ?IH.
Qed.

Lemma accepted_sublist (ups : list (s3_put * option exn)) :
  accepted ups `sublist_of` map fst ups.
Proof.
  induction ups as [|[put [e|]] ups IH].
  - constructor.
  - change (accepted ((put, Some e) :: ups)) with (accepted ups).
    now apply sublist_cons.
  - change (accepted ((put, None) :: ups)) with (put :: accepted ups).
    now apply sublist_skip.
Qed.

Lemma public_url_NoDup (b : option string) (puts : list s3_put) :
  Forall (fun put => Bucket put = b) puts ->
  NoDup (map Key puts) ->
  NoDup (map public_url puts).
Proof.
  induction puts as [|put puts IH]; intros Hb Hnd; [constructor|].
  inversion Hb as [|? ? Hput Hrest]; subst.
  cbn [map] in *. apply NoDup_cons in Hnd as [Hnotin Hnd].
  apply NoDup_cons. split; [|now apply IH].
  intros Hin. apply list_elem_of_fmap in Hin as (put' & Heq & Hin).
  apply Hnotin. apply list_elem_of_fmap. exists put'. split; [|exact Hin].
  rewrite Forall_forall in Hrest. specialize (Hrest put' Hin).
  unfold public_url in Heq. rewrite Hrest in Heq.
  apply (inj (String.append "https://")) in Heq.
  apply (inj (String.append (Py.str_opt (Bucket put)))) in Heq.
  now apply (inj (String.append ".s3.amazonaws.com/")) in Heq.
Qed.

Section Facts.

Variable E : services.

(** *** The uploader *)

Lemma upload_item_account self i item urls w :
  exists urls' new,
    upload_item E self i item urls w = (Returned urls', new ++ w) /\
    clock_reads new = length (present i [item]) /\
    if String.eqb (storage_type self) "s3"
    then length urls' + st_errors new
         = length urls + length (present i [item])
    else urls' = urls /\ st_errors new = 0.
Proof.
  destruct item as [f|]; cbn [upload_item present length].
  2:{ exists urls, []. split; [reflexivity|]. split; [reflexivity|].
      destruct (String.eqb _ _); [cbn; lia | now split]. }
  unfold bind, now, call. rewrite AppFacts.upload_image_run.
  destruct (String.eqb (storage_type self) "s3").
  - set (put := put_of self (seek f 0)
                  (object_name (strftime (datetime_now E w)) i)).
    destruct (s3_upload_fileobj E _ put) as [e|].
    + exists urls. eexists [_; _; _]. split; [reflexivity|].
      split; [reflexivity|]. cbn. lia.
    + exists (urls ++ [public_url put]). eexists [_; _].
      split; [reflexivity|].
      split; [reflexivity|]. rewrite length_app. cbn. lia.
  - exists urls. eexists [_]. split; [reflexivity|]. now repeat split.
Qed.

Lemma upload_loop_account self files : forall i urls w,
  exists urls' new,
    upload_loop E self i files urls w = (Returned urls', new ++ w) /\
    clock_reads new = length (present i files) /\
    if String.eqb (storage_type self) "s3"
    then length urls' + st_errors new = length urls + length (present i files)
    else urls' = urls /\ st_errors new = 0.
Proof.
  induction files as [|item files IH]; intros i urls w.
  - exists urls, []. split; [reflexivity|]. split; [reflexivity|].
    destruct (String.eqb _ _); [cbn; lia | now split].
  - cbn [upload_loop]. unfold bind.
    destruct (upload_item_account self i item urls w)
      as (urls1 & new1 & Hrun1 & Hc1 & H1).
    rewrite Hrun1.
    destruct (IH (S i) urls1 (new1 ++ w)) as (urls2 & new2 & Hrun2 & Hc2 & H2).
    rewrite Hrun2. exists urls2, (new2 ++ new1).
    rewrite <- app_assoc. split; [reflexivity|].
    rewrite clock_reads_app, st_errors_app.
    assert (Hlen : length (present i (item :: files))
                   = length (present i [item]) + length (present (S i) files))
      by (destruct item; reflexivity).
    split; [lia|].
    destruct (String.eqb (storage_type self) "s3").
    + lia.
    + destruct H1 as [-> ->], H2 as [-> ->]. now split.
Qed.

(** X12: the clock is read once for each item that is not [None].  With
    the [s3] storage type each such item ends either as an address in the
    result or as one [st.error] message: the two counts add up to the
    number of items that are not [None].  With another storage type the
    result is empty and no message is shown. *)
Theorem upload_multiple_images_accounting self files w :
  exists urls new,
    upload_multiple_images E self files w = (Returned urls, new ++ w) /\
    clock_reads new = length (present 0 files) /\
    if String.eqb (storage_type self) "s3"
    then length urls + st_errors new = length (present 0 files)
    else urls = [] /\ st_errors new = 0.
Proof.
  destruct (upload_loop_account self files 0 [] w)
    as (urls & new & Hrun & Hc & H).
  exists urls, new. repeat split; assumption.
Qed.

(** X13: a list that holds nothing but [None], the empty list included,
    gives the empty result and leaves the world untouched: the clock is
    not read and nothing is sent. *)
Theorem upload_multiple_images_nothing self files w :
  Forall (fun image_file => image_file = None) files ->
  upload_multiple_images E self files w = (Returned [], w).
Proof.
  unfold upload_multiple_images. generalize 0 (@nil string).
  induction files as [|item files IH]; intros i urls Hall.
  - reflexivity.
  - inversion Hall as [|? ? -> Hrest]; subst.
    cbn [upload_loop upload_item]. unfold bind, ret.
    now apply IH.
Qed.

Lemma stored_as_source self new w items ups :
  Forall2 (stored_as E self new w) items ups ->
  forall up, up ∈ ups ->
    exists item, item ∈ items /\ stored_as E self new w item up.
Proof.
  induction 1 as [|item up items ups Hst Hrest IH]; intros up' Hin.
  - now apply elem_of_nil in Hin.
  - apply elem_of_cons in Hin as [->|Hin].
    + exists item. split; [left | exact Hst].
    + destruct (IH up' Hin) as (item' & Hin' & Hst').
      exists item'. split; [now right | exact Hst'].
Qed.

Lemma stored_keys_NoDup self new w items ups :
  Forall2 (stored_as E self new w) items ups ->
  NoDup (map fst items) ->
  NoDup (map Key (map fst ups)).
Proof.
  induction 1 as [|item up items ups Hst Hrest IH]; intros Hnd;
    [constructor|].
  cbn [map] in *. apply NoDup_cons in Hnd as [Hnotin Hnd].
  apply NoDup_cons. split; [|now apply IH].
  intros Hin. apply Hnotin.
  apply list_elem_of_fmap in Hin as (put & Hkey & Hin).
  apply list_elem_of_fmap in Hin as (up' & -> & Hin).
  destruct (stored_as_source self new w items ups Hrest up' Hin)
    as (item' & Hin' & (l1 & e1 & _ & _ & Hk1 & _)).
  destruct Hst as (l0 & e0 & _ & _ & Hk0 & _).
  rewrite Hk0, Hk1 in Hkey. apply object_name_inj in Hkey.
  apply list_elem_of_fmap. exists item'. split; [exact Hkey | exact Hin'].
Qed.

(** X14: within one call the names of the uploaded objects are pairwise
    distinct, whatever the clock says, and so are the addresses
    returned. *)
Theorem upload_multiple_images_distinct self files w :
  exists urls new,
    upload_multiple_images E self files w = (Returned urls, new ++ w) /\
    NoDup (map Key (map fst (uploads (rev new)))) /\
    NoDup urls.
Proof.
  destruct (AppFacts.upload_loop_run E self files 0 [] w)
    as (new & Hrun & Hups).
  eexists _, new. split; [exact Hrun|]. cbn [app].
  destruct (String.eqb (storage_type self) "s3").
  2:{ rewrite Hups. split; constructor. }
  assert (Hkeys : NoDup (map Key (map fst (uploads (rev new))))).
  { apply (stored_keys_NoDup self new w _ _ Hups).
    apply (present_positions files 0). }
  split; [exact Hkeys|].
  apply (public_url_NoDup (bucket_name self)).
  - apply Forall_forall. intros put Hin.
    pose proof (elem_of_sublist _ _ _ Hin
                  (accepted_sublist (uploads (rev new)))) as Hin'.
    apply list_elem_of_fmap in Hin' as (up & -> & Hin').
    destruct (stored_as_source self new w _ _ Hups up Hin')
      as (item & _ & (l0 & e0 & _ & _ & _ & _ & Hb)).
    exact Hb.
  - eapply sublist_NoDup; [exact Hkeys|].
    apply fmap_sublist, accepted_sublist.
Qed.

(** *** The marketplace client *)

(** X15: a token response with an error status, 400 to 599, makes
    [get_access_token] return [False] with the manager as it was and one
    message shown, built from the status, the reason and the URL; the body
    of the response is not looked at. *)
Theorem get_access_token_http_error self code w r :
  requests_post E w (token_request self code) = PostResponse r ->
  is_http_error (status_code r) = true ->
  get_access_token E self code w
  = (Returned (false, self),
     EvStError
       ("Error getting access token: " +:+ Py.str_nat (status_code r)
        +:+ (if (status_code r <? 500)%nat then " Client Error: "
             else " Server Error: ")
        +:+ reason r +:+ " for url: " +:+ response_url r)
     :: EvHttpPost (token_request self code) (PostResponse r) :: w).
Proof.
  intros Hpost Hstatus.
  unfold get_access_token, try_except, bind at 1.
  rewrite AppFacts.post_run, Hpost.
  unfold bind, raise_for_status. rewrite Hstatus. reflexivity.
Qed.

(** X16: the three ways [get_access_token] ends.  [True]: the response had
    no error status and a JSON object as body, both tokens are replaced by
    the entries of the body ([None] where missing) and nothing is shown.
    [False]: the manager is unchanged and one message is shown.  An
    exception: it is not a [RequestException], and nothing is shown.  In
    each case exactly one request was sent. *)
Theorem get_access_token_outcomes self code w :
  let req := token_request self code in
  let sent := EvHttpPost req (requests_post E w req) :: w in
  match get_access_token E self code w with
  | (Returned (true, self'), w') =>
      w' = sent /\
      exists r kvs,
        requests_post E w req = PostResponse r /\
        is_http_error (status_code r) = false /\
        json r = inr (JObj kvs) /\
        self' = set_refresh_token
                  (set_access_token self
                     (default JNull (assoc "access_token" kvs)))
                  (default JNull (assoc "refresh_token" kvs))
  | (Returned (false, self'), w') =>
      self' = self /\
      exists msg, w' = EvStError ("Error getting access token: " +:+ msg) :: sent
  | (Raised e, w') => w' = sent /\ catches RequestException e = false
  end.
Proof.
  intros req sent. subst req sent.
  unfold get_access_token, try_except, bind at 1.
  rewrite AppFacts.post_run.
  destruct (requests_post E w (token_request self code)) as [e|r] eqn:Hpost.
  - destruct (catches RequestException e) eqn:Hc; cbn; eauto.
  - unfold bind, raise_for_status.
    destruct (is_http_error (status_code r)) eqn:Hstatus; [cbn; eauto|].
    unfold response_json.
    destruct (json r) as [e|v] eqn:Hjson.
    + cbn -[catches]. destruct (catches RequestException e) eqn:Hc; cbn; eauto.
    + destruct v; cbn; try (split; reflexivity).
      split; [reflexivity|]. eauto 10.
Qed.

(** X17: the token of a successful exchange is the one the next draft
    request carries: after a response whose body holds a non-empty text as
    [access_token], [create_draft_listing] on the manager left by
    [get_access_token] sends its request with that text as bearer, to the
    draft URL of the same base URL. *)
Theorem exchanged_token_is_bearer self code w r kvs c tok listing image_urls :
  requests_post E w (token_request self code) = PostResponse r ->
  is_http_error (status_code r) = false ->
  json r = inr (JObj kvs) ->
  assoc "access_token" kvs = Some (JStr (String c tok)) ->
  exists self' w1,
    get_access_token E self code w = (Returned (true, self'), w1) /\
    exists req,
      snd (create_draft_listing E self' listing image_urls w1)
      = EvHttpPost req (requests_post E w1 req) :: w1 /\
      url req = base_url self +:+ "/sell/inventory/v1/inventory_item/draft" /\
      assoc_header "Authorization" (headers req)
      = Some (Formatted "Bearer " (JStr (String c tok))) /\
      body req = JsonBody (listing_data listing image_urls).
Proof.
  intros Hpost Hstatus Hjson Htok.
  set (self' := set_refresh_token
                  (set_access_token self (JStr (String c tok)))
                  (default JNull (assoc "refresh_token" kvs))).
  set (w1 := EvHttpPost (token_request self code) (PostResponse r) :: w).
  exists self', w1. split.
  - unfold get_access_token, try_except, bind at 1.
    rewrite AppFacts.post_run, Hpost.
    unfold bind, raise_for_status, response_json.
    rewrite Hstatus, Hjson. cbn [dict_get ret]. rewrite Htok. reflexivity.
  - exists (draft_request self' listing image_urls).
    split; [|repeat split].
    unfold create_draft_listing.
    replace (truthy (access_token self')) with true by reflexivity.
    cbn [negb]. unfold try_except, bind at 1. rewrite AppFacts.post_run.
    destruct (requests_post E w1 (draft_request self' listing image_urls))
      as [e|r']; [reflexivity|].
    destruct (status_code r' =? 201)%nat; [|reflexivity].
    unfold bind, response_json. destruct (json r') as [e|v]; [reflexivity|].
    destruct v; reflexivity.
Qed.

(** X18: [create_draft_listing] never raises.  It reports success only
    for a response with status 201 whose body is a JSON object, and the
    listing id is then the [sku] entry of the body ([None] when missing);
    any other status, 200 included, is reported as the failure
    [API Error: <status> - <text>]. *)
Theorem create_draft_listing_outcomes self listing image_urls w :
  let req := draft_request self listing image_urls in
  exists result w',
    create_draft_listing E self listing image_urls w = (Returned result, w') /\
    (forall listing_id message,
       result = DraftSuccess listing_id message ->
       message = "Draft listing created successfully" /\
       truthy (access_token self) = true /\
       exists r kvs,
         requests_post E w req = PostResponse r /\
         status_code r = 201 /\
         json r = inr (JObj kvs) /\
         listing_id = default JNull (assoc "sku" kvs) /\
         w' = EvHttpPost req (PostResponse r) :: w) /\
    (forall r,
       truthy (access_token self) = true ->
       requests_post E w req = PostResponse r ->
       status_code r <> 201 ->
       result
       = DraftFailure ("API Error: " +:+ Py.str_nat (status_code r)
                       +:+ " - " +:+ text r)).
Proof.
  intros req. unfold create_draft_listing.
  destruct (truthy (access_token self)) eqn:Htok; cbn [negb].
  2:{ eexists _, _. split; [reflexivity|].
      split; [intros ? ? [=] | intros ? [=]]. }
  unfold try_except, bind at 1. rewrite AppFacts.post_run. fold req.
  destruct (requests_post E w req) as [e|r] eqn:Hpost.
  { eexists _, _. split; [reflexivity|].
    split; [intros ? ? [=] | intros ? _ [=]]. }
  destruct (Nat.eqb_spec (status_code r) 201) as [H201|H201].
  2:{ eexists _, _. split; [reflexivity|].
      split; [intros ? ? [=] | intros ? _ [= <-] _; reflexivity]. }
  unfold bind, response_json.
  destruct (json r) as [e|v] eqn:Hjson.
  { eexists _, _. split; [reflexivity|].
    split; [intros ? ? [=] | intros ? _ [= <-] Hne; contradiction]. }
  destruct v as [| | | | | |kvs]; cbn;
    try solve [ eexists _, _; split; [reflexivity|];
                split; [ intros ? ? H; discriminate H
                       | intros ? _ [= <-] Hne; contradiction] ].
  eexists _, _. split; [reflexivity|].
  split; [|intros ? _ [= <-] Hne; contradiction].
  intros listing_id message [= <- <-].
  split; [reflexivity|]. split; [reflexivity|].
  exists r, kvs. now repeat split.
Qed.

(** X19: of a listing only the title and the description reach the
    marketplace: two listings that agree on both give the same run of
    [create_draft_listing], whatever their categories, weights and
    prices. *)
Theorem create_draft_listing_title_and_description self l1 l2 image_urls w :
  ai_module.title l1 = ai_module.title l2 ->
  ai_module.description l1 = ai_module.description l2 ->
  draft_request self l1 image_urls = draft_request self l2 image_urls /\
  create_draft_listing E self l1 image_urls w
  = create_draft_listing E self l2 image_urls w.
Proof.
  intros Ht Hd.
  assert (Hreq : draft_request self l1 image_urls
                 = draft_request self l2 image_urls).
  { unfold draft_request, listing_data. now rewrite Ht, Hd. }
  split; [exact Hreq|].
  unfold create_draft_listing. now rewrite Hreq.
Qed.

End Facts.

(** *** Concrete runs *)

Lemma check_configuration_enables_constructors_witness :
  main_missing_vars Samples.full_environ = [] /\
  ai_module.eBayListingGenerator_init Samples.full_environ None
  = inr {| ai_module.api_key := "sk-test" |} /\
  CloudStorageManager_init Samples.client_of_region Samples.full_environ "s3"
  = inr Samples.sample_storage.
Proof.
  destruct (check_configuration_enables_constructors
              Samples.client_of_region Samples.full_environ eq_refl)
    as (Hmain & _ & _ & _).
  split; [exact Hmain|]. split; reflexivity.
Defined.

(** With the bucket name left empty the check fails and names it. *)
Example check_configuration_names_missing :
  check_configuration (<["S3_BUCKET_NAME" := EmptyString]> Samples.full_environ)
  = (false,
     [StError "Missing required environment variables:";
      StWrite "- S3_BUCKET_NAME (S3 bucket name for image storage)";
      StInfo configuration_help]).
Proof. vm_compute; reflexivity. Qed.

Lemma upload_multiple_images_nothing_witness :
  upload_multiple_images (Samples.answering "ok") Samples.sample_storage
    [None; None] []
  = (Returned [], []).
Proof.
  apply (upload_multiple_images_nothing (Samples.answering "ok")
           Samples.sample_storage [None; None] []).
  repeat constructor.
Defined.

Lemma get_access_token_http_error_witness :
  let E := Samples.marketplace (PostResponse Samples.unauthorized) in
  let self := eBayAPIManager_init ∅ in
  get_access_token E self "v^1.1#i^1" []
  = (Returned (false, self),
     [EvStError
        "Error getting access token: 401 Client Error: Unauthorized for url: https://api.sandbox.ebay.com/identity/v1/oauth2/token";
      EvHttpPost (token_request self "v^1.1#i^1")
        (PostResponse Samples.unauthorized)]).
Proof.
  intros E self.
  apply (get_access_token_http_error E self "v^1.1#i^1" []
           Samples.unauthorized); reflexivity.
Defined.

Lemma exchanged_token_is_bearer_witness :
  let E := Samples.marketplace (PostResponse Samples.granted) in
  let self := eBayAPIManager_init ∅ in
  exists self' w1,
    get_access_token E self "v^1.1#i^1" [] = (Returned (true, self'), w1) /\
    exists req,
      snd (create_draft_listing E self' Samples.sample_listing [] w1)
      = EvHttpPost req (requests_post E w1 req) :: w1 /\
      url req = base_url self +:+ "/sell/inventory/v1/inventory_item/draft" /\
      assoc_header "Authorization" (headers req)
      = Some (Formatted "Bearer " (JStr "v^1.1#t^8")) /\
      body req = JsonBody (listing_data Samples.sample_listing []).
Proof.
  intros E self.
  apply (exchanged_token_is_bearer E self "v^1.1#i^1" [] Samples.granted
           [("access_token", JStr "v^1.1#t^8"); ("expires_in", JInt 7200)]);
    reflexivity.
Defined.

Lemma create_draft_listing_title_and_description_witness :
  let E := Samples.marketplace (PostResponse Samples.granted) in
  let self := set_access_token (eBayAPIManager_init ∅) (JStr "t") in
  let other :=
    {| ai_module.title := "Leather jacket";
       ai_module.description := "<p>Good condition</p>";
       ai_module.category := "Books > Fiction";
       ai_module.postage_weight := Py.f0_1;
       ai_module.suggested_price := Some Py.f0_5 |} in
  draft_request self Samples.sample_listing []
  = draft_request self other [] /\
  create_draft_listing E self Samples.sample_listing [] []
  = create_draft_listing E self other [] [].
Proof.
  intros E self other.
  apply (create_draft_listing_title_and_description E self
           Samples.sample_listing other [] []); reflexivity.
Defined.

(** A response with status 200 is reported as a failure. *)
Example create_draft_listing_rejects_200 :
  fst (create_draft_listing
         (Samples.marketplace (PostResponse Samples.granted))
         (set_access_token (eBayAPIManager_init ∅) (JStr "t"))
         Samples.sample_listing [] [])
  = Returned (DraftFailure "API Error: 200 - {}").
Proof. reflexivity. Qed.

End AppExtras.

(** ** Properties of the page of [app.py] *)

Module PageExtras.
Import Ext app page Trace.

Lemma unlink_all_lookup (temp_paths : list string) :
  forall (files : gmap string string) (k : string),
    unlink_all temp_paths files !! k
    = if decide (k ∈ temp_paths) then None else files !! k.
Proof.
  unfold unlink_all.
  induction temp_paths as [|path paths IH]; intros files k; cbn [fold_left].
  - destruct (decide (k ∈ [])) as [H|H]; [now apply elem_of_nil in H|].
    reflexivity.
  - rewrite IH.
    destruct (decide (k ∈ paths)) as [H|H];
      destruct (decide (k ∈ path :: paths)) as [H'|H']; try reflexivity.
    + exfalso; apply H'; now right.
    + apply elem_of_cons in H' as [->|H']; [|contradiction].
      apply lookup_delete_eq.
    + apply lookup_delete_ne. intros ->. apply H'. left.
Qed.

Lemma save_uploads_paths names : forall imgs files acc,
  length imgs <= length names ->
  fst (save_uploads names imgs files acc)
  = inr (acc ++ firstn (length imgs) names).
Proof.
  induction names as [|n names IH]; intros [|f imgs] files acc Hlen;
    cbn [save_uploads length firstn fst] in *; try lia;
    try now rewrite app_nil_r.
  rewrite IH by lia. now rewrite <- app_assoc.
Qed.

Lemma save_uploads_other names : forall imgs files acc k,
  k ∉ firstn (length imgs) names ->
  snd (save_uploads names imgs files acc) !! k = files !! k.
Proof.
  induction names as [|n names IH]; intros [|f imgs] files acc k Hk;
    cbn [save_uploads length firstn snd] in *; try reflexivity.
  rewrite IH by (intros H; apply Hk; now right).
  apply lookup_insert_ne. intros ->. apply Hk. left.
Qed.

Lemma save_uploads_saved names : forall imgs files acc i n f,
  NoDup names ->
  names !! i = Some n -> imgs !! i = Some f ->
  snd (save_uploads names imgs files acc) !! n = Some (data f).
Proof.
  induction names as [|n0 names IH]; intros [|f0 imgs] files acc i n f Hnd Hn Hf;
    try discriminate.
  apply NoDup_cons in Hnd as [Hnotin Hnd].
  cbn [save_uploads]. destruct i as [|i].
  - injection Hn as ->. injection Hf as ->.
    rewrite save_uploads_other.
    + apply lookup_insert_eq.
    + intros H. apply Hnotin.
      apply elem_of_take in H as (j & Hj & _).
      eapply list_elem_of_lookup_2; exact Hj.
  - now apply (IH imgs _ _ i).
Qed.

Section Facts.
Variable E : services.
Variable float : string -> option spec_float.
Variable boto3_client : client_args -> option exn.
Variable Image_open : file_obj -> exn + nat.
Variable st_image : file_obj -> exn + nat.

Lemma preview_image_data f f' :
  preview_image Image_open st_image f = inr f' -> data f' = data f.
Proof.
  unfold preview_image.
  destruct (Image_open f) as [e|position]; [discriminate|].
  destruct (st_image _) as [e|position']; [discriminate|].
  now intros [= <-].
Qed.

Lemma preview_images_opened uploaded_files : forall i p,
  Forall (fun f => exists f', preview_image Image_open st_image f = inr f')
    uploaded_files ->
  exists opened p',
    preview_images Image_open st_image i uploaded_files p
    = (inr opened, p') /\
    map data opened = map data uploaded_files /\
    state p' = state p /\ disk p' = disk p.
Proof.
  induction uploaded_files as [|f rest IH]; intros i p Hall.
  - exists [], p. repeat split.
  - inversion Hall as [|? ? [f' Hf] Hrest]; subst.
    cbn [preview_images]. rewrite Hf.
    edestruct (IH (S i)) as (opened & p' & -> & Hdata & Hstate & Hdisk);
      [exact Hrest|].
    eexists _, p'. split; [reflexivity|].
    cbn [map]. rewrite Hdata, (preview_image_data _ _ Hf).
    repeat split; assumption.
Qed.

Lemma preview_images_unopened l1 : forall i p f l2 e,
  Forall (fun f => exists f', preview_image Image_open st_image f = inr f')
    l1 ->
  preview_image Image_open st_image f = inl e ->
  exists p',
    preview_images Image_open st_image i (l1 ++ f :: l2) p = (inl e, p') /\
    state p' = state p /\ disk p' = disk p.
Proof.
  induction l1 as [|f1 l1 IH]; intros i p f l2 e Hall Hf.
  - exists p. cbn [app preview_images]. rewrite Hf. repeat split.
  - inversion Hall as [|? ? [f1' Hf1] Hrest]; subst.
    cbn [app preview_images]. rewrite Hf1.
    edestruct (IH (S i)) as (p' & -> & Hstate & Hdisk);
      [exact Hrest | exact Hf |].
    exists p'. repeat split; assumption.
Qed.

Lemma firstn_6_short {A} (l : list A) :
  (6 <? length l)%nat = false -> firstn 6 l = l.
Proof. intros H%Nat.ltb_ge. now apply firstn_all2. Qed.

(** X20: when each of the first six uploaded files is opened by
    [Image.open] and shown by [st.image] without an error,
    [display_image_upload] answers [True] exactly when a file was
    uploaded, and then the session holds the first six files, in order and
    with their bytes, and nothing else of the session or the disk changes;
    with no file it answers [False] and leaves the session as it is. *)
Theorem display_image_upload_first_six uploaded_files p :
  Forall (fun f => exists position position',
            Image_open f = inr position /\
            st_image {| data := data f; position := position |}
            = inr position')
    (firstn 6 uploaded_files) ->
  exists p',
    display_image_upload Image_open st_image uploaded_files p
    = (Returned (negb (bool_decide (uploaded_files = []))), p') /\
    (uploaded_files <> [] ->
     map data (uploaded_images (state p'))
     = map data (firstn 6 uploaded_files)) /\
    (uploaded_files = [] -> state p' = state p) /\
    generated_listing (state p') = generated_listing (state p) /\
    image_urls (state p') = image_urls (state p) /\
    listing_created (state p') = listing_created (state p) /\
    disk p' = disk p.
Proof.
  intros Hall.
  assert (Hall' : Forall (fun f => exists f',
                            preview_image Image_open st_image f = inr f')
                    (firstn 6 uploaded_files)).
  { eapply Forall_impl; [exact Hall|].
    intros f (position & position' & Hopen & Hshow).
    unfold preview_image. rewrite Hopen, Hshow. eexists; reflexivity. }
  clear Hall. rename Hall' into Hall.
  unfold display_image_upload.
  destruct uploaded_files as [|f rest].
  - eexists. split; [reflexivity|].
    split; [intros H; now destruct H|]. repeat split.
  - cbv iota. set (uploaded_files := f :: rest) in *.
    assert (Hne : bool_decide (uploaded_files = []) = false)
      by (apply bool_decide_eq_false; discriminate).
    assert (Hne' : uploaded_files <> []) by discriminate.
    rewrite Hne. cbn [negb]. clear Hne. clearbody uploaded_files.
    destruct (6 <? length uploaded_files)%nat eqn:Hlong; cbv beta iota zeta.
    + edestruct (preview_images_opened (firstn 6 uploaded_files) 0)
        as (opened & p' & -> & Hdata & Hstate & Hdisk); [exact Hall|].
      eexists. split; [reflexivity|].
      cbn [set_uploaded_images state uploaded_images generated_listing
             image_urls listing_created disk].
      rewrite Hstate, Hdisk.
      split; [intros _; exact Hdata|].
      split; [intros H; contradiction|]. repeat split.
    + rewrite (firstn_6_short _ Hlong) in Hall.
      edestruct (preview_images_opened uploaded_files 0)
        as (opened & p' & -> & Hdata & Hstate & Hdisk); [exact Hall|].
      eexists. split; [reflexivity|].
      cbn [set_uploaded_images state uploaded_images generated_listing
             image_urls listing_created disk].
      rewrite Hstate, Hdisk, (firstn_6_short _ Hlong).
      split; [intros _; exact Hdata|].
      split; [intros H; contradiction|]. repeat split.
Qed.

(** X21: when one of the first six uploaded files gives an error in its
    preview, raised by [Image.open] or, once opened, by [st.image], and
    the files before it are opened and shown without one,
    [display_image_upload] raises that error and the session keeps the
    images it held before: [uploaded_images] is only assigned after every
    preview. *)
Theorem display_image_upload_unopened uploaded_files p i f e :
  i < 6 ->
  uploaded_files !! i = Some f ->
  (Image_open f = inl e \/
   exists position,
     Image_open f = inr position /\
     st_image {| data := data f; position := position |} = inl e) ->
  Forall (fun f => exists position position',
            Image_open f = inr position /\
            st_image {| data := data f; position := position |}
            = inr position')
    (firstn i uploaded_files) ->
  exists p',
    display_image_upload Image_open st_image uploaded_files p
    = (Raised e, p') /\
    state p' = state p /\ disk p' = disk p.
Proof.
  intros Hi Hf He Hall.
  assert (Hall' : Forall (fun f => exists f',
                            preview_image Image_open st_image f = inr f')
                    (firstn i uploaded_files)).
  { eapply Forall_impl; [exact Hall|].
    intros f0 (position & position' & Hopen & Hshow).
    unfold preview_image. rewrite Hopen, Hshow. eexists; reflexivity. }
  clear Hall. rename Hall' into Hall.
  assert (He' : preview_image Image_open st_image f = inl e).
  { unfold preview_image.
    destruct He as [-> | (position & -> & ->)]; reflexivity. }
  clear He. rename He' into He.
  pose proof (lookup_lt_Some _ _ _ Hf) as Hlen.
  assert (Hfirst : firstn 6 uploaded_files
                   = firstn i uploaded_files
                       ++ f :: firstn (5 - i) (skipn (S i) uploaded_files)).
  { rewrite <- (take_drop_middle uploaded_files i f Hf) at 1.
    rewrite take_app_ge by (rewrite length_take; lia).
    rewrite length_take, Nat.min_l by lia.
    replace (6 - i) with (S (5 - i)) by lia. reflexivity. }
  unfold display_image_upload.
  destruct uploaded_files as [|f0 rest] eqn:Hfiles; [discriminate|].
  cbv iota. rewrite <- Hfiles in *. clear Hfiles.
  pose proof (fun q => preview_images_unopened (firstn i uploaded_files) 0 q
                        f (firstn (5 - i) (skipn (S i) uploaded_files))
                        e Hall He) as Hrun.
  rewrite <- Hfirst in Hrun.
  destruct (6 <? length uploaded_files)%nat eqn:Hlong; cbv beta iota zeta;
    [| rewrite (firstn_6_short _ Hlong) in Hrun];
    edestruct Hrun as (p' & -> & Hstate & Hdisk);
    exists p'; repeat split; assumption.
Qed.

(** X22: the block under [Create eBay Draft Listing] never reaches
    [create_draft_listing]: the manager it builds holds no access token,
    so for every environment the block only shows the warning, the note
    and the preview of the listing (its description cut to 200
    characters); no request is sent and [listing_created] stays as it
    is. *)
Theorem main_create_draft_only_previews environ final_listing p w :
  exists preview,
    main_create_draft E environ final_listing p w
    = (Returned
         (show
            [StWarning "eBay authentication required. This would normally redirect to eBay for authorization.";
             StInfo "Draft listing would be created with the following details:";
             StJson (JObj preview)]
            p),
       w) /\
    assoc "title" preview = Some (JStr (ai_module.title final_listing)) /\
    assoc "description" preview
    = Some (JStr (Py.prefix 200 (ai_module.description final_listing)
                  +:+ "...")) /\
    assoc "image_count" preview
    = Some (JInt (Z.of_nat (length (image_urls (state p))))) /\
    assoc "image_urls" preview
    = Some (JArr (map JStr (image_urls (state p)))).
Proof.
  unfold main_create_draft.
  rewrite AppFacts.fresh_manager_has_no_token. cbn [truthy negb].
  eexists. split; [reflexivity|]. repeat split.
Qed.

(** X23: without a usable [OPENAI_API_KEY] the block under
    [Generate eBay Listing] writes no temporary file and asks nothing of
    the model: it only shows [Error generating listing: OpenAI API key is
    required]. *)
Theorem main_generate_listing_without_key environ names d p w :
  Py.str_truthy (environ !! "OPENAI_API_KEY") = false ->
  main_generate_listing E float environ names d p w
  = (Returned
       (show [StError "Error generating listing: OpenAI API key is required"]
          p),
     w).
Proof.
  intros Hkey. unfold main_generate_listing,
    ai_module.eBayListingGenerator_init, Py.or_else.
  cbn [Py.str_truthy].
  destruct (environ !! "OPENAI_API_KEY") as [[|c k]|]; try discriminate;
    reflexivity.
Qed.

(** X24: with a key, enough fresh names for the temporary files and a
    session of images, the block under [Generate eBay Listing] ends in one
    of two ways.  Either it stores a listing, shows the success and leaves
    the disk exactly as it found it (every temporary file is removed); or
    the analysis failed, the error shown is [Error generating listing:
    Failed to analyze images: ...], no listing is stored, and every
    temporary file is left on the disk with the bytes of its image.  The
    images, the urls and [listing_created] are never touched. *)
Theorem main_generate_listing_outcomes environ names d p w :
  Py.str_truthy (environ !! "OPENAI_API_KEY") = true ->
  NoDup names ->
  Forall (fun name => disk p !! name = None) names ->
  length (uploaded_images (state p)) <= length names ->
  exists p' w',
    main_generate_listing E float environ names d p w = (Returned p', w') /\
    uploaded_images (state p') = uploaded_images (state p) /\
    image_urls (state p') = image_urls (state p) /\
    listing_created (state p') = listing_created (state p) /\
    ((exists listing,
         generated_listing (state p') = Some listing /\
         shown p' = shown p ++ [StSuccess "✅ Listing generated successfully!"] /\
         disk p' = disk p)
     \/
     (exists msg,
         generated_listing (state p') = generated_listing (state p) /\
         shown p'
         = shown p ++ [StError ("Error generating listing: "
                                +:+ ("Failed to analyze images: " +:+ msg))] /\
         (forall i name f,
             names !! i = Some name ->
             uploaded_images (state p) !! i = Some f ->
             disk p' !! name = Some (data f)) /\
         (forall k, k ∉ names -> disk p' !! k = disk p !! k))).
Proof.
  intros Hkey Hnd Hfresh Hlen. unfold main_generate_listing.
  set (imgs := uploaded_images (state p)) in *.
  assert (Hinit : exists g,
             ai_module.eBayListingGenerator_init environ None = inr g).
  { unfold ai_module.eBayListingGenerator_init, Py.or_else.
    cbn [Py.str_truthy].
    destruct (environ !! "OPENAI_API_KEY") as [[|c k]|]; try discriminate.
    eexists; reflexivity. }
  destruct Hinit as [g ->].
  pose proof (save_uploads_paths names imgs (disk p) [] Hlen) as Hpaths.
  cbn [app] in Hpaths.
  destruct (save_uploads names imgs (disk p) []) as [saved files] eqn:Hsave.
  cbn [fst] in Hpaths. subst saved.
  assert (Hother : forall k, k ∉ firstn (length imgs) names ->
                             files !! k = disk p !! k).
  { intros k Hk.
    pose proof (save_uploads_other names imgs (disk p) [] k Hk) as H.
    now rewrite Hsave in H. }
  assert (Hsaved : forall i name f,
             names !! i = Some name -> imgs !! i = Some f ->
             files !! name = Some (data f)).
  { intros i name f Hn Hf.
    pose proof (save_uploads_saved names imgs (disk p) [] i name f
                  Hnd Hn Hf) as H.
    now rewrite Hsave in H. }
  destruct (ai_module.generate_complete_listing (with_files E files) float
              (firstn (length imgs) names) d w) as [[listing|e] w'] eqn:Hrun.
  - eexists _, w'. split; [reflexivity|].
    cbn [show set_disk set_generated_listing state disk shown
           uploaded_images image_urls listing_created generated_listing].
    repeat split. left. exists listing. repeat split.
    apply map_eq. intros k. rewrite unlink_all_lookup.
    destruct (decide (k ∈ firstn (length imgs) names)) as [Hk|Hk].
    + apply elem_of_take in Hk as (j & Hj & _).
      rewrite Forall_forall in Hfresh. symmetry. apply Hfresh.
      eapply list_elem_of_lookup_2; exact Hj.
    + now apply Hother.
  - eexists _, w'. split; [reflexivity|].
    cbn [show set_disk state disk shown
           uploaded_images image_urls listing_created generated_listing].
    repeat split. right.
    destruct (AiModuleExtras.generate_complete_listing_raised _ _ _ _ _ _ _
                Hrun) as [[msg ->] | (q & Hq & Hread)].
    + exists msg. cbn [str]. repeat split.
      * exact Hsaved.
      * intros k Hk. apply Hother. intros Hin. apply Hk.
        apply elem_of_take in Hin as (j & Hj & _).
        eapply list_elem_of_lookup_2; exact Hj.
    + exfalso.
      apply list_elem_of_In, elem_of_take in Hq as (j & Hj & _).
      apply list_elem_of_lookup_2, elem_of_take in Hj as (j' & Hj' & Hlt).
      destruct (lookup_lt_is_Some_2 imgs j' Hlt) as [f Hf].
      cbn [with_files read_file] in Hread.
      now rewrite (Hsaved j' q f Hj' Hf) in Hread.
Qed.

Lemma sent_whole self new w uploaded_images : forall i ups,
  Forall2 (stored_as E self new w)
    (present i (map (fun f => Some (seek f 0)) uploaded_images)) ups ->
  Forall2 (fun f up => Body (fst up) = data f /\
                       Bucket (fst up) = bucket_name self)
    uploaded_images ups.
Proof.
  induction uploaded_images as [|f rest IH]; intros i ups Hups;
    cbn [map present] in Hups.
  - inversion Hups. constructor.
  - inversion Hups
      as [|item up items ups'
            (later & earlier & _ & _ & _ & Hbody & Hbucket) Hrest];
      subst.
    constructor; [now split | now apply (IH (S i))].
Qed.

Lemma length_present_all {A B} (g : A -> B) (l : list A) : forall i,
  length (present i (map (fun a => Some (g a)) l)) = length l.
Proof.
  induction l as [|a l IH]; intros i; cbn [map present length];
    [reflexivity | now rewrite IH].
Qed.

(** X25: the block under [Upload Images to Cloud] shows
    [Error uploading images: ...] exactly when [boto3.client] raises in
    the constructor of the storage manager; then nothing is uploaded and
    [image_urls] is not assigned.  Otherwise it always gets to the success
    message, since each failed upload is caught inside [upload_image]: the
    message counts the addresses stored in [image_urls], that is the
    images of the session less the uploads that failed (each of those
    shows one [st.error]), so it is shown with 0 when every upload fails.
    Every image is sent whole, whatever position it was left at, to the
    bucket [S3_BUCKET_NAME]. *)
Theorem main_upload_images_reports_count environ uploaded_images w :
  match boto3_client (s3_client_args environ) with
  | Some e =>
      main_upload_images E boto3_client environ uploaded_images w
      = (Returned (None, [StError ("Error uploading images: " +:+ str e)]),
         w)
  | None =>
      exists image_urls new,
        main_upload_images E boto3_client environ uploaded_images w
        = (Returned
             (Some image_urls,
              StSuccess ("✅ " +:+ Py.str_nat (length image_urls)
                         +:+ " images uploaded successfully!")
              :: imap (fun i url =>
                         StWrite ("Image " +:+ Py.str_nat (i + 1) +:+ ": "
                                  +:+ url))
                   image_urls),
           new ++ w) /\
        length image_urls + st_errors new = length uploaded_images /\
        clock_reads new = length uploaded_images /\
        Forall2 (fun f up => Body (fst up) = data f /\
                             Bucket (fst up) = environ !! "S3_BUCKET_NAME")
          uploaded_images (uploads (rev new))
  end.
Proof.
  unfold main_upload_images, CloudStorageManager_init, upload_multiple_images.
  cbn [String.eqb Ascii.eqb Bool.eqb].
  destruct (boto3_client (s3_client_args environ)) as [e|]; [reflexivity|].
  set (self := {| storage_type := "s3";
                  bucket_name := getenv environ "S3_BUCKET_NAME" |}).
  set (files := map (fun f => Some (seek f 0)) uploaded_images).
  destruct (AppExtras.upload_loop_account E self files 0 [] w)
    as (urls & new & Hrun & Hclock & Hcount).
  destruct (AppFacts.upload_loop_run E self files 0 [] w)
    as (new' & Hrun' & Hups).
  assert (new' = new) as ->.
  { rewrite Hrun in Hrun'. injection Hrun' as _ Hw.
    symmetry. eapply app_inv_tail; exact Hw. }
  rewrite Hrun. exists urls, new. split; [reflexivity|].
  change (String.eqb (storage_type self) "s3") with true in Hcount, Hups.
  cbv iota in Hcount, Hups. subst files.
  rewrite length_present_all in Hcount, Hclock.
  repeat split; [exact Hcount | exact Hclock |].
  exact (sent_whole self new w uploaded_images 0 _ Hups).
Qed.

End Facts.

Lemma display_image_upload_first_six_witness :
  let later :=
    Samples.two_images ++ Samples.two_images ++ Samples.two_images
    ++ [ {| data := EmptyString; position := 0 |} ] in
  exists p',
    display_image_upload Samples.opens Samples.decodes later
      Samples.sample_page
    = (Returned true, p') /\
    length (uploaded_images (state p')) = 6.
Proof.
  intros later.
  destruct (display_image_upload_first_six Samples.opens Samples.decodes
              later Samples.sample_page) as (p' & Hrun & Hdata & _).
  - repeat constructor; eexists _, _; split; reflexivity.
  - exists p'. split; [exact Hrun|].
    rewrite <- (length_map data), Hdata by discriminate. reflexivity.
Defined.

Lemma display_image_upload_unopened_witness :
  let truncated := {| data := "JPG"; position := 0 |} in
  exists p',
    display_image_upload Samples.opens Samples.decodes
      (Samples.two_images ++ [truncated]) Samples.sample_page
    = (Raised (mkExn OSError "image file is truncated"), p') /\
    uploaded_images (state p') = Samples.two_images.
Proof.
  intros truncated.
  destruct (display_image_upload_unopened Samples.opens Samples.decodes
              (Samples.two_images ++ [truncated]) Samples.sample_page 2
              truncated (mkExn OSError "image file is truncated"))
    as (p' & Hrun & Hstate & _).
  - lia.
  - reflexivity.
  - right. exists 3. split; reflexivity.
  - repeat constructor; eexists _, _; split; reflexivity.
  - exists p'. split; [exact Hrun|]. now rewrite Hstate.
Defined.

(** With [AWS_REGION] set to the empty text the sample client cannot be
    made: the block shows the error and uploads nothing. *)
Example main_upload_images_bad_region :
  main_upload_images (Samples.answering "ok") Samples.client_of_region
    (<["AWS_REGION" := EmptyString]> Samples.full_environ)
    Samples.two_images []
  = (Returned
       (None,
        [StError "Error uploading images: Invalid endpoint: https://s3..amazonaws.com"]),
     []).
Proof. vm_compute; reflexivity. Qed.

Lemma main_generate_listing_without_key_witness :
  main_generate_listing (Samples.answering "A brown leather jacket")
    Py.float_of_str (<["OPENAI_API_KEY" := EmptyString]> Samples.full_environ)
    ["/tmp/tmp0.jpg"; "/tmp/tmp1.jpg"] "jacket" Samples.sample_page []
  = (Returned
       (show [StError "Error generating listing: OpenAI API key is required"]
          Samples.sample_page),
     []).
Proof.
  apply (main_generate_listing_without_key
           (Samples.answering "A brown leather jacket") Py.float_of_str).
  reflexivity.
Defined.

Lemma main_generate_listing_outcomes_witness :
  exists p' w',
    main_generate_listing (Samples.answering "A brown leather jacket")
      Py.float_of_str Samples.full_environ
      ["/tmp/tmp0.jpg"; "/tmp/tmp1.jpg"] "jacket" Samples.sample_page []
    = (Returned p', w') /\
    uploaded_images (state p') = Samples.two_images.
Proof.
  destruct (main_generate_listing_outcomes
              (Samples.answering "A brown leather jacket") Py.float_of_str
              Samples.full_environ ["/tmp/tmp0.jpg"; "/tmp/tmp1.jpg"]
              "jacket" Samples.sample_page [])
    as (p' & w' & Hrun & Himgs & _).
  - reflexivity.
  - apply NoDup_cons. split; [|apply NoDup_singleton].
    intros H%list_elem_of_singleton. discriminate H.
  - repeat constructor.
  - cbn. lia.
  - exists p', w'. split; [exact Hrun | exact Himgs].
Defined.

End PageExtras.
